(** * The Content aggregate of the CMS backend, and its command service

    A shallow embedding of

    - [domains/content/types.ts]                       ([Result], [ok], [err])
    - [domains/content/value-objects/ContentState.ts]  (module [ContentState])
    - [domains/content/entities/Content.ts]            (module [Content])
    - [domains/content/services/ContentPermissions.ts] (module [DefaultContentPermissions])
    - [domains/content/repositories/ContentRepository.ts]
                                                       ([ContentSearchCriteria], [RepositoryE])
    - [domains/content/repositories/InMemoryContentRepository.ts]
                                                       (module [InMemoryContentRepository])
    - [domains/content/services/ContentService.ts]     (module [ContentService])
    - [infrastructure/di/container.ts]                 ([container])

    followed by the properties of these definitions.

    Conventions.  A TypeScript [string] is a [string]; [s.length] is
    [String.length s] and [s.substring(0, n)] is [String.substring 0 n s].
    The branded types [ContentId] and [UserId] are strings, compared with
    [===], that is by value.  The [async] methods have no suspension point
    of their own besides the calls they await one after the other, so a call
    is modelled as one sequential computation.  [new Date()] and the calls
    on the injected collaborators are effects; they are the events of the
    free monad [Prog]. *)

From Stdlib Require Import ZArith Bool List Sorted Lia.
From stdpp Require Import base strings list gmap.
Import ListNotations.

Local Open Scope string_scope.
Local Open Scope nat_scope.

(** ** [types.ts] *)

Definition ContentId := string.
Definition UserId := string.

(** [type Result<T, E> = { ok: true; value: T } | { ok: false; error: E }] *)
Inductive Result (T E : Type) : Type :=
| ok (value : T)
| err (error : E).
Arguments ok {T E} value.
Arguments err {T E} error.

Definition isOk {T E} (r : Result T E) : bool :=
  match r with ok _ => true | err _ => false end.

(** [new Error(message)]: the code tells its failures apart by message only. *)
Record Error : Type := mkError { message : string }.

(** The failure taxonomy of the specification. *)
Inductive ErrorKind : Type :=
| InvalidInput
| IllegalTransition
| NotFound
| PermissionDenied
| InvalidOperation
| InvalidState.

Definition hasPrefix (p s : string) : bool :=
  bool_decide (String.substring 0 (String.length p) s = p).

(** The kind an [Error] of this code base stands for, read off the message
    the code builds it with. *)
Definition errorKind (e : Error) : option ErrorKind :=
  let m := message e in
  if bool_decide (m = "Title must be between 5 and 100 characters") then Some InvalidInput
  else if bool_decide (m = "Body must be at least 100 characters") then Some InvalidInput
  else if hasPrefix "Cannot transition from " m then Some IllegalTransition
  else if bool_decide (m = "Content not found") then Some NotFound
  else if hasPrefix "Permission denied: " m then Some PermissionDenied
  else if bool_decide (m = "Only published content can be soft deleted") then Some InvalidOperation
  else if bool_decide (m = "Published content cannot be hard deleted") then Some InvalidOperation
  else if hasPrefix "Invalid content state: " m then Some InvalidState
  else None.

(** A JavaScript [Date]: a time value in milliseconds since the epoch
    (negative before 1970), or the invalid date, whose time value is NaN. *)
Inductive Date : Type :=
| DateAt (ms : Z)
| InvalidDate.

(** [d?.getTime() || 0]: [undefined], NaN and [0] are falsy, so all three
    yield [0]. *)
Definition timeOrZero (d : option Date) : Z :=
  match d with
  | Some (DateAt ms) => ms
  | Some InvalidDate => 0%Z
  | None => 0%Z
  end.

(** Truthiness of a possibly missing object ([if (o)], [!o], [o || d]): an
    object, a [Date] included, is truthy; only [undefined] is falsy. *)
Definition defined {A} (o : option A) : bool :=
  match o with
  | Some _ => true
  | None => false
  end.

(** Truthiness of a possibly missing string ([if (s)], [s || d]): [undefined]
    and the empty string are falsy. *)
Definition truthy (s : option string) : bool :=
  match s with
  | Some (String _ _) => true
  | Some EmptyString => false
  | None => false
  end.

(** ** [ContentState.ts] *)

Module ContentState.

(** [type ContentStateType = "draft" | "published" | "private" | "archived"];
    the class wraps one such tag and its constructor is private. *)
Inductive t : Type :=
| draft
| published
| private
| archived.

#[global] Instance t_eq_dec : EqDecision t.
Proof. solve_decision. Defined.

Definition getValue (s : t) : string :=
  match s with
  | draft => "draft"
  | published => "published"
  | private => "private"
  | archived => "archived"
  end.

Definition validStates : list t := [draft; published; private; archived].

(** [create(state)]: the tag arrives as a string at run time. *)
Definition create (state : string) : Result t Error :=
  match List.find (fun v => bool_decide (getValue v = state)) validStates with
  | Some v => ok v
  | None => err (mkError ("Invalid content state: " ++ state))
  end.

Definition isDraft (s : t) : bool := bool_decide (getValue s = "draft").
Definition isPublished (s : t) : bool := bool_decide (getValue s = "published").
Definition isPrivate (s : t) : bool := bool_decide (getValue s = "private").
Definition isArchived (s : t) : bool := bool_decide (getValue s = "archived").

Definition canTransitionTo (this newState : t) : bool :=
  let currentState := getValue this in
  let targetState := getValue newState in
  if bool_decide (currentState = "archived") && bool_decide (targetState = "published")
  then false
  else true.

Definition equals (this other : t) : bool :=
  bool_decide (getValue this = getValue other).

End ContentState.

(** ** Effects

    A computation that calls out to its environment is a finite tree: it
    either returns, or performs one event [e : E X] and continues with the
    environment's answer of type [X]. *)

Inductive Prog (E : Type -> Type) (A : Type) : Type :=
| Ret (a : A)
| Vis {X : Type} (e : E X) (k : X -> Prog E A).
Arguments Ret {E A} a.
Arguments Vis {E A X} e k.

Fixpoint bind {E A B} (p : Prog E A) (f : A -> Prog E B) : Prog E B :=
  match p with
  | Ret a => f a
  | Vis e k => Vis e (fun x => bind (k x) f)
  end.

Definition trigger {E X} (e : E X) : Prog E X := Vis e Ret.

(** Running a computation of a component inside one of its client, whose
    events [F] include the component's events [E]. *)
Fixpoint translate {E F : Type -> Type} {A} (inj : forall X, E X -> F X)
    (p : Prog E A) : Prog F A :=
  match p with
  | Ret a => Ret a
  | Vis e k => Vis (inj _ e) (fun x => translate inj (k x))
  end.

Declare Scope prog_scope.
Delimit Scope prog_scope with prog.
Notation "x <- p ;; q" := (bind p (fun x => q))
  (at level 100, p at next level, right associativity) : prog_scope.
Local Open Scope prog_scope.

(** An environment with state [S] answers every event and moves on. *)
Definition Handler (E : Type -> Type) (S : Type) : Type :=
  forall X, E X -> S -> X * S.

Fixpoint run {E S A} (h : Handler E S) (p : Prog E A) (s : S) : A * S :=
  match p with
  | Ret a => (a, s)
  | Vis e k => let (x, s') := h _ e s in run h (k x) s'
  end.

(** One recorded event, whatever its answer type. *)
Inductive Invocation (E : Type -> Type) : Type :=
| Invoke {X : Type} (e : E X).
Arguments Invoke {E X} e.

(** The events a computation performs against an environment, in order. *)
Fixpoint calls {E S A} (h : Handler E S) (p : Prog E A) (s : S)
    : list (Invocation E) :=
  match p with
  | Ret _ => []
  | Vis e k => let (x, s') := h _ e s in Invoke e :: calls h (k x) s'
  end.

(** [new Date()] *)
Inductive ClockE : Type -> Type :=
| NewDate : ClockE Date.

(** ** [Content.ts] *)

Module Content.

(** [interface ContentProps] *)
Record ContentProps : Type := mkProps {
  props_id : ContentId;
  props_title : string;
  props_body : string;
  props_authorId : UserId;
  props_state : ContentState.t;
  props_excerpt : option string;
  props_publishedAt : option Date;
  props_updatedAt : option Date
}.

(** The private constructor of [class Content]; the projections are the
    class's getters. *)
Record t : Type := mkContent {
  getId : ContentId;
  getTitle : string;
  getBody : string;
  getAuthorId : UserId;
  getState : ContentState.t;
  getExcerpt : string;
  getPublishedAt : option Date;
  getUpdatedAt : option Date
}.

Definition titleError : Error :=
  mkError "Title must be between 5 and 100 characters".
Definition bodyError : Error :=
  mkError "Body must be at least 100 characters".

Definition create (props : ContentProps) : Prog ClockE (Result t Error) :=
  if (String.length (props_title props) <? 5)
     || (100 <? String.length (props_title props))
  then Ret (err titleError)
  else if String.length (props_body props) <? 100
  then Ret (err bodyError)
  else
    let excerpt :=
      if truthy (props_excerpt props)
      then default "" (props_excerpt props)
      else String.substring 0 150 (props_body props) in
    now <- trigger NewDate ;;
    Ret (ok (mkContent
               (props_id props)
               (props_title props)
               (props_body props)
               (props_authorId props)
               (props_state props)
               excerpt
               (props_publishedAt props)
               (Some (default now (props_updatedAt props))))).

Definition updateTitle (newTitle : string) (this : t)
    : Prog ClockE (Result t Error) :=
  if (String.length newTitle <? 5) || (100 <? String.length newTitle)
  then Ret (err titleError)
  else
    now <- trigger NewDate ;;
    Ret (ok (mkContent (getId this) newTitle (getBody this)
               (getAuthorId this) (getState this) (getExcerpt this)
               (getPublishedAt this) (Some now))).

Definition updateBody (newBody : string) (this : t)
    : Prog ClockE (Result t Error) :=
  if String.length newBody <? 100
  then Ret (err bodyError)
  else
    let newExcerpt :=
      if bool_decide (getExcerpt this = String.substring 0 150 (getBody this))
      then String.substring 0 150 newBody
      else getExcerpt this in
    now <- trigger NewDate ;;
    Ret (ok (mkContent (getId this) (getTitle this) newBody
               (getAuthorId this) (getState this) newExcerpt
               (getPublishedAt this) (Some now))).

Definition updateExcerpt (newExcerpt : string) (this : t)
    : Prog ClockE (Result t Error) :=
  now <- trigger NewDate ;;
  Ret (ok (mkContent (getId this) (getTitle this) (getBody this)
             (getAuthorId this) (getState this) newExcerpt
             (getPublishedAt this) (Some now))).

Definition transitionError (from to : ContentState.t) : Error :=
  mkError ("Cannot transition from " ++ ContentState.getValue from
           ++ " to " ++ ContentState.getValue to).

(** In [newState.isPublished() && !this.publishedAt ? new Date() : ...]
    the first [new Date()] is evaluated only when the test holds; the one
    for [updatedAt] always is.  A [Date] object is truthy, so
    [!this.publishedAt] holds exactly when the field is [undefined]. *)
Definition changeState (newState : ContentState.t) (this : t)
    : Prog ClockE (Result t Error) :=
  if negb (ContentState.canTransitionTo (getState this) newState)
  then Ret (err (transitionError (getState this) newState))
  else
    publishedAt <-
      (if ContentState.isPublished newState
          && negb (defined (getPublishedAt this))
       then (stamp <- trigger NewDate ;; Ret (Some stamp))
       else Ret (getPublishedAt this)) ;;
    now <- trigger NewDate ;;
    Ret (ok (mkContent (getId this) (getTitle this) (getBody this)
               (getAuthorId this) newState (getExcerpt this)
               publishedAt (Some now))).

Definition publish (this : t) : Prog ClockE (Result t Error) :=
  changeState ContentState.published this.

Definition unpublish (this : t) : Prog ClockE (Result t Error) :=
  changeState ContentState.private this.

Definition archive (this : t) : Prog ClockE (Result t Error) :=
  changeState ContentState.archived this.

Definition isOwnedBy (userId : UserId) (this : t) : bool :=
  bool_decide (getAuthorId this = userId).

End Content.

(** ** [ContentPermissions.ts] *)

Module DefaultContentPermissions.

Definition canEdit (content : Content.t) (userId : UserId)
    (userRole : string) : bool :=
  if bool_decide (userRole = "Author") && Content.isOwnedBy userId content
  then true
  else if bool_decide (userRole = "Editor") || bool_decide (userRole = "Admin")
  then true
  else false.

Definition canDelete (content : Content.t) (userId : UserId)
    (userRole : string) : bool :=
  if bool_decide (userRole = "Admin")
  then true
  else if bool_decide (userRole = "Author")
          && Content.isOwnedBy userId content
          && negb (ContentState.isPublished (Content.getState content))
  then true
  else if bool_decide (userRole = "Editor")
          && negb (ContentState.isPublished (Content.getState content))
  then true
  else false.

Definition canPublish (content : Content.t) (userId : UserId)
    (userRole : string) : bool :=
  if bool_decide (userRole = "Author") && Content.isOwnedBy userId content
  then true
  else if bool_decide (userRole = "Editor") || bool_decide (userRole = "Admin")
  then true
  else false.

End DefaultContentPermissions.

(** ** JavaScript containers *)

(** [Map<string, V>]: the entries in insertion order.  [set] on a present
    key replaces the value where it stands, on an absent key it appends;
    [delete] removes the entry, so a later [set] of the key appends. *)
Module JsMap.

Definition t (V : Type) : Type := list (string * V).

Fixpoint get {V} (k : string) (m : t V) : option V :=
  match m with
  | [] => None
  | (k', v) :: m' => if bool_decide (k' = k) then Some v else get k m'
  end.

Definition has {V} (k : string) (m : t V) : bool := defined (get k m).

Fixpoint set {V} (k : string) (v : V) (m : t V) : t V :=
  match m with
  | [] => [(k, v)]
  | (k', v') :: m' =>
      if bool_decide (k' = k) then (k, v) :: m' else (k', v') :: set k v m'
  end.

Definition delete {V} (k : string) (m : t V) : t V :=
  List.filter (fun e => negb (bool_decide (fst e = k))) m.

Definition values {V} (m : t V) : list V := List.map snd m.

End JsMap.

(** [Array.prototype] methods used by the repository.  Numbers are the
    integers among the JavaScript numbers. *)
Module JsArray.

(** [l.slice(start, end)], [end] possibly missing: a negative index counts
    from the end of the array, and both are clamped to it. *)
Definition slice {A} (start : Z) (end_ : option Z) (l : list A) : list A :=
  let len := Z.of_nat (length l) in
  let clamp (i : Z) := if (i <? 0)%Z then Z.max (len + i) 0 else Z.min i len in
  let k := clamp start in
  let final := match end_ with Some e => clamp e | None => len end in
  take (Z.to_nat (final - k)) (drop (Z.to_nat k) l).

(** [l.sort(compare)] for a consistent comparator: the sort is stable, so
    its result is the one of any stable sort; [x] goes before the first
    element it must not follow. *)
Fixpoint insertBy {A} (compare : A -> A -> Z) (x : A) (l : list A) : list A :=
  match l with
  | [] => [x]
  | y :: l' =>
      if (compare x y <=? 0)%Z then x :: y :: l' else y :: insertBy compare x l'
  end.

Definition sort {A} (compare : A -> A -> Z) (l : list A) : list A :=
  foldr (insertBy compare) [] l.

End JsArray.

(** [if (n)] on a possibly missing number: [undefined] and [0] are falsy. *)
Definition truthyNumber (n : option Z) : bool :=
  match n with
  | Some z => negb (z =? 0)%Z
  | None => false
  end.

(** [a >= b] and [a <= b] on dates compare the time values; a comparison
    with NaN is false. *)
Definition dateGe (a b : Date) : bool :=
  match a, b with
  | DateAt x, DateAt y => (y <=? x)%Z
  | _, _ => false
  end.

Definition dateLe (a b : Date) : bool :=
  match a, b with
  | DateAt x, DateAt y => (x <=? y)%Z
  | _, _ => false
  end.

(** ** [ContentRepository.ts]: the repository contract *)

Record ContentSearchCriteria : Type := mkCriteria {
  criteria_authorId : option UserId;
  criteria_state : option ContentState.t;
  criteria_featured : option bool;
  criteria_publishedAfter : option Date;
  criteria_publishedBefore : option Date;
  criteria_limit : option Z;
  criteria_offset : option Z
}.

(** [interface ContentRepository]: one event per method. *)
Inductive RepositoryE : Type -> Type :=
| FindById (id : ContentId) : RepositoryE (Result (option Content.t) Error)
| FindByAuthor (authorId : UserId) : RepositoryE (Result (list Content.t) Error)
| FindPublished (criteria : option ContentSearchCriteria)
    : RepositoryE (Result (list Content.t) Error)
| FindFeatured : RepositoryE (Result (list Content.t) Error)
| Search (criteria : ContentSearchCriteria)
    : RepositoryE (Result (list Content.t) Error)
| Save (content : Content.t) : RepositoryE (Result unit Error)
| SoftDelete (id : ContentId) : RepositoryE (Result unit Error)
| Delete (id : ContentId) : RepositoryE (Result unit Error)
| CountFeatured : RepositoryE (Result nat Error)
| Exists (id : ContentId) : RepositoryE (Result bool Error).

(** ** [InMemoryContentRepository.ts] *)

Module InMemoryContentRepository.

(** The two private fields of the class. *)
Record t : Type := mkRepo {
  contents : JsMap.t Content.t;
  deletedContents : gset string
}.

Definition empty : t := mkRepo [] ∅.

Definition notDeleted (this : t) (content : Content.t) : bool :=
  negb (bool_decide (Content.getId content ∈ deletedContents this)).

Definition publishedSince (afterDate : Date) (content : Content.t) : bool :=
  match Content.getPublishedAt content with
  | Some publishedAt => dateGe publishedAt afterDate
  | None => false
  end.

Definition publishedUntil (beforeDate : Date) (content : Content.t) : bool :=
  match Content.getPublishedAt content with
  | Some publishedAt => dateLe publishedAt beforeDate
  | None => false
  end.

(** The filters and the pagination [findPublished] and [search] share:
    [if (criteria.x) contents = ...], one after the other. *)
Definition byAuthor (criteria : ContentSearchCriteria)
    (l : list Content.t) : list Content.t :=
  if truthy (criteria_authorId criteria)
  then List.filter
         (fun content =>
            bool_decide (Some (Content.getAuthorId content) = criteria_authorId criteria))
         l
  else l.

Definition byState (criteria : ContentSearchCriteria)
    (l : list Content.t) : list Content.t :=
  match criteria_state criteria with
  | Some state =>
      List.filter
        (fun content => ContentState.equals (Content.getState content) state) l
  | None => l
  end.

Definition byWindow (criteria : ContentSearchCriteria)
    (l : list Content.t) : list Content.t :=
  let l1 :=
    match criteria_publishedAfter criteria with
    | Some afterDate => List.filter (publishedSince afterDate) l
    | None => l
    end in
  match criteria_publishedBefore criteria with
  | Some beforeDate => List.filter (publishedUntil beforeDate) l1
  | None => l1
  end.

Definition paginate (criteria : ContentSearchCriteria)
    (l : list Content.t) : list Content.t :=
  let l1 :=
    if truthyNumber (criteria_offset criteria)
    then JsArray.slice (default 0%Z (criteria_offset criteria)) None l
    else l in
  if truthyNumber (criteria_limit criteria)
  then JsArray.slice 0 (Some (default 0%Z (criteria_limit criteria))) l1
  else l1.

Definition findById (id : ContentId) (this : t)
    : Result (option Content.t) Error :=
  if bool_decide (id ∈ deletedContents this)
  then ok None
  else ok (JsMap.get id (contents this)).

Definition findByAuthor (authorId : UserId) (this : t)
    : Result (list Content.t) Error :=
  ok (List.filter
        (fun content => bool_decide (Content.getAuthorId content = authorId))
        (List.filter (notDeleted this) (JsMap.values (contents this)))).

Definition findPublished (criteria : option ContentSearchCriteria) (this : t)
    : Result (list Content.t) Error :=
  let contents :=
    List.filter
      (fun content => ContentState.isPublished (Content.getState content))
      (List.filter (notDeleted this) (JsMap.values (contents this))) in
  match criteria with
  | Some criteria => ok (paginate criteria (byWindow criteria (byAuthor criteria contents)))
  | None => ok contents
  end.

(** The comparator of [findFeatured]: [bTime - aTime].  The time values
    are integers, so the sign of the floating-point difference is the sign
    of the exact one. *)
Definition byPublishedAtDesc (a b : Content.t) : Z :=
  let aTime := timeOrZero (Content.getPublishedAt a) in
  let bTime := timeOrZero (Content.getPublishedAt b) in
  (bTime - aTime)%Z.

Definition findFeatured (this : t) : Result (list Content.t) Error :=
  match findPublished None this with
  | err error => err error
  | ok published =>
      ok (JsArray.slice 0 (Some 5%Z) (JsArray.sort byPublishedAtDesc published))
  end.

Definition search (criteria : ContentSearchCriteria) (this : t)
    : Result (list Content.t) Error :=
  let contents := List.filter (notDeleted this) (JsMap.values (contents this)) in
  ok (paginate criteria
        (byWindow criteria (byState criteria (byAuthor criteria contents)))).

Definition save (content : Content.t) (this : t) : Result unit Error * t :=
  (ok tt,
   mkRepo (JsMap.set (Content.getId content) content (contents this))
          (deletedContents this)).

Definition softDelete (id : ContentId) (this : t) : Result unit Error * t :=
  match JsMap.get id (contents this) with
  | None => (err (mkError "Content not found"), this)
  | Some content =>
      if negb (ContentState.isPublished (Content.getState content))
      then (err (mkError "Only published content can be soft deleted"), this)
      else (ok tt, mkRepo (contents this) ({[id]} ∪ deletedContents this))
  end.

Definition delete (id : ContentId) (this : t) : Result unit Error * t :=
  match JsMap.get id (contents this) with
  | None => (err (mkError "Content not found"), this)
  | Some content =>
      if ContentState.isPublished (Content.getState content)
      then (err (mkError "Published content cannot be hard deleted"), this)
      else (ok tt, mkRepo (JsMap.delete id (contents this)) (deletedContents this))
  end.

Definition countFeatured (this : t) : Result nat Error :=
  match findFeatured this with
  | err error => err error
  | ok featured => ok (length featured)
  end.

Definition exists_ (id : ContentId) (this : t) : Result bool Error :=
  ok (JsMap.has id (contents this)
      && negb (bool_decide (id ∈ deletedContents this))).

(** The class's test helpers; they are not part of the contract. *)
Definition clear (this : t) : t := mkRepo [] ∅.

Definition getAll (this : t) : list Content.t :=
  List.filter (notDeleted this) (JsMap.values (contents this)).

(** The class as an implementation of the contract. *)
Definition handle : Handler RepositoryE t :=
  fun X e this =>
    match e in RepositoryE X return X * t with
    | FindById id => (findById id this, this)
    | FindByAuthor authorId => (findByAuthor authorId this, this)
    | FindPublished criteria => (findPublished criteria this, this)
    | FindFeatured => (findFeatured this, this)
    | Search criteria => (search criteria this, this)
    | Save content => save content this
    | SoftDelete id => softDelete id this
    | Delete id => delete id this
    | CountFeatured => (countFeatured this, this)
    | Exists id => (exists_ id this, this)
    end.

End InMemoryContentRepository.

(** ** [ContentService.ts] *)

(** [interface ContentPermissions]: one event per method. *)
Inductive PermissionsE : Type -> Type :=
| CanEdit (content : Content.t) (userId : UserId) (userRole : string)
    : PermissionsE bool
| CanDelete (content : Content.t) (userId : UserId) (userRole : string)
    : PermissionsE bool
| CanPublish (content : Content.t) (userId : UserId) (userRole : string)
    : PermissionsE bool.

(** What a service method can do besides computing: read the clock (inside
    the entity's mutators) and call its two injected collaborators. *)
Inductive ServiceE : Type -> Type :=
| Clock {X : Type} (e : ClockE X) : ServiceE X
| Repository {X : Type} (e : RepositoryE X) : ServiceE X
| Permissions {X : Type} (e : PermissionsE X) : ServiceE X.

Module ContentService.

Definition repository {X} (e : RepositoryE X) : Prog ServiceE X :=
  trigger (Repository e).

Definition permissions {X} (e : PermissionsE X) : Prog ServiceE X :=
  trigger (Permissions e).

(** A method of the entity, called from the service. *)
Definition entity {A} (p : Prog ClockE A) : Prog ServiceE A :=
  translate (@Clock) p.

Definition publishContent (contentId : ContentId) (userId : UserId)
    (userRole : string) : Prog ServiceE (Result Content.t Error) :=
  contentResult <- repository (FindById contentId) ;;
  match contentResult with
  | err error => Ret (err error)
  | ok None => Ret (err (mkError "Content not found"))
  | ok (Some content) =>
      allowed <- permissions (CanPublish content userId userRole) ;;
      if negb allowed
      then Ret (err (mkError "Permission denied: cannot publish content"))
      else
        publishResult <- entity (Content.publish content) ;;
        match publishResult with
        | err error => Ret (err error)
        | ok published =>
            saveResult <- repository (Save published) ;;
            match saveResult with
            | err error => Ret (err error)
            | ok _ => Ret (ok published)
            end
        end
  end.

Definition canAddFeaturedContent : Prog ServiceE (Result bool Error) :=
  countResult <- repository CountFeatured ;;
  match countResult with
  | err error => Ret (err error)
  | ok count => Ret (ok (count <? 5))
  end.

(** [page = 1, limit = 10]: a missing argument takes its default. *)
Definition getPublishedContent (page limit : option Z)
    : Prog ServiceE (Result (list Content.t) Error) :=
  let page := default 1%Z page in
  let limit := default 10%Z limit in
  let offset := ((page - 1) * limit)%Z in
  repository
    (FindPublished
       (Some (mkCriteria None None None None None (Some limit) (Some offset)))).

Definition getContentByAuthor (authorId requestingUserId : UserId)
    (userRole : string) : Prog ServiceE (Result (list Content.t) Error) :=
  if negb (bool_decide (authorId = requestingUserId))
     && negb (bool_decide (userRole = "Editor"))
     && negb (bool_decide (userRole = "Admin"))
  then Ret (err (mkError "Permission denied: cannot view other users' content"))
  else repository (FindByAuthor authorId).

Definition deleteContent (contentId : ContentId) (userId : UserId)
    (userRole : string) : Prog ServiceE (Result unit Error) :=
  contentResult <- repository (FindById contentId) ;;
  match contentResult with
  | err error => Ret (err error)
  | ok None => Ret (err (mkError "Content not found"))
  | ok (Some content) =>
      allowed <- permissions (CanDelete content userId userRole) ;;
      if negb allowed
      then Ret (err (mkError "Permission denied: cannot delete content"))
      else if ContentState.isPublished (Content.getState content)
      then repository (SoftDelete contentId)
      else repository (Delete contentId)
  end.

(** [updates: { title?: string; body?: string; excerpt?: string }] *)
Record Updates : Type := mkUpdates {
  updates_title : option string;
  updates_body : option string;
  updates_excerpt : option string
}.

Definition updateContent (contentId : ContentId) (updates : Updates)
    (userId : UserId) (userRole : string)
    : Prog ServiceE (Result Content.t Error) :=
  contentResult <- repository (FindById contentId) ;;
  match contentResult with
  | err error => Ret (err error)
  | ok None => Ret (err (mkError "Content not found"))
  | ok (Some content) =>
      allowed <- permissions (CanEdit content userId userRole) ;;
      if negb allowed
      then Ret (err (mkError "Permission denied: cannot edit content"))
      else
        afterTitle <-
          (if truthy (updates_title updates)
           then entity (Content.updateTitle (default "" (updates_title updates)) content)
           else Ret (ok content)) ;;
        match afterTitle with
        | err error => Ret (err error)
        | ok content =>
            afterBody <-
              (if truthy (updates_body updates)
               then entity (Content.updateBody (default "" (updates_body updates)) content)
               else Ret (ok content)) ;;
            match afterBody with
            | err error => Ret (err error)
            | ok content =>
                afterExcerpt <-
                  (if truthy (updates_excerpt updates)
                   then entity (Content.updateExcerpt
                                  (default "" (updates_excerpt updates)) content)
                   else Ret (ok content)) ;;
                match afterExcerpt with
                | err error => Ret (err error)
                | ok content =>
                    saveResult <- repository (Save content) ;;
                    match saveResult with
                    | err error => Ret (err error)
                    | ok _ => Ret (ok content)
                    end
                end
            end
        end
  end.

End ContentService.

(** ** The composition root: [container.ts]

    The service runs against one [InMemoryContentRepository], the
    [DefaultContentPermissions] and the system clock.  The clock is the
    sequence of readings still to come; every [new Date()] takes the next
    one, and that is a valid date. *)

Record World : Type := mkWorld {
  repo : InMemoryContentRepository.t;
  clock : nat -> Z
}.

Definition handleClock : Handler ClockE (nat -> Z) :=
  fun X e readings =>
    match e in ClockE X return X * (nat -> Z) with
    | NewDate => (DateAt (readings 0), fun n => readings (S n))
    end.

Definition handlePermissions {X} (e : PermissionsE X) : X :=
  match e in PermissionsE X return X with
  | CanEdit content userId userRole =>
      DefaultContentPermissions.canEdit content userId userRole
  | CanDelete content userId userRole =>
      DefaultContentPermissions.canDelete content userId userRole
  | CanPublish content userId userRole =>
      DefaultContentPermissions.canPublish content userId userRole
  end.

Definition container : Handler ServiceE World :=
  fun X e w =>
    match e in ServiceE X return X * World with
    | Clock e =>
        let (x, readings) := handleClock _ e (clock w) in (x, mkWorld (repo w) readings)
    | Repository e =>
        let (x, r) := InMemoryContentRepository.handle _ e (repo w) in
        (x, mkWorld r (clock w))
    | Permissions e => (handlePermissions e, w)
    end.

(** ** Scenarios

    Definitions the statements below are phrased with; they are not part of
    the program. *)

(** A caller that changes the state of an entity again and again, each call
    on the instance the previous one returned, and gives up at the first
    failure. *)
Fixpoint successively (targets : list ContentState.t) (content : Content.t)
    : Prog ClockE (Result Content.t Error) :=
  match targets with
  | [] => Ret (ok content)
  | target :: targets' =>
      changed <- Content.changeState target content ;;
      match changed with
      | err error => Ret (err error)
      | ok content' => successively targets' content'
      end
  end.

(** A clock for examples: the n-th reading is [start + n]. *)
Definition clockFrom (start : Z) : nat -> Z := fun n => (start + Z.of_nat n)%Z.

Definition testBody : string :=
  "This is a test content body that meets the minimum character requirement of 100 characters for content validation.".

Definition sampleContent (id : ContentId) (state : ContentState.t)
    (publishedAt : option Date) : Content.t :=
  Content.mkContent id "Test Content" testBody "user-1" state
    (String.substring 0 150 testBody) publishedAt (Some (DateAt 1)).

(** A repository holding one published content under "content-1". *)
Definition onePublished : InMemoryContentRepository.t :=
  snd (InMemoryContentRepository.save
         (sampleContent "content-1" ContentState.published (Some (DateAt 1000)))
         InMemoryContentRepository.empty).

(** "Ordered by [publishedAt] descending, records with no [publishedAt] as
    oldest": whether [a] may stand before [b] in such an order. *)
Definition notOlderThan (a b : Content.t) : Prop :=
  match Content.getPublishedAt b, Content.getPublishedAt a with
  | None, _ => True
  | Some _, None => False
  | Some db, Some da => (timeOrZero (Some db) <= timeOrZero (Some da))%Z
  end.

(** The order [findFeatured] sorts by: the time value descending, a missing
    [publishedAt] counting as the epoch. *)
Definition notBefore (a b : Content.t) : Prop :=
  (timeOrZero (Content.getPublishedAt b) <= timeOrZero (Content.getPublishedAt a))%Z.

(** Two published contents: "content-1" with no [publishedAt], as
    [Content.create] builds it from props that give none, and "content-2"
    published one second before the epoch. *)
Definition undated : Content.t :=
  sampleContent "content-1" ContentState.published None.

Definition preEpoch : Content.t :=
  sampleContent "content-2" ContentState.published (Some (DateAt (-1000))).

Definition undatedAndPreEpoch : InMemoryContentRepository.t :=
  snd (InMemoryContentRepository.save preEpoch
         (snd (InMemoryContentRepository.save undated
                 InMemoryContentRepository.empty))).

(** "The supplied field updates, applied in the fixed order title, then
    body, then excerpt; the first one that fails aborts": a field is supplied
    when the test [if (updates.field)] of the service passes. *)
Definition supplied (field : option string)
    (update : string -> Content.t -> Prog ClockE (Result Content.t Error))
    (content : Content.t) : Prog ClockE (Result Content.t Error) :=
  if truthy field then update (default "" field) content else Ret (ok content).

Fixpoint inOrder (steps : list (Content.t -> Prog ClockE (Result Content.t Error)))
    (content : Content.t) : Prog ClockE (Result Content.t Error) :=
  match steps with
  | [] => Ret (ok content)
  | step :: steps' =>
      stepped <- step content ;;
      match stepped with
      | err error => Ret (err error)
      | ok content' => inOrder steps' content'
      end
  end.

Definition fieldUpdates (updates : ContentService.Updates) (content : Content.t)
    : Prog ClockE (Result Content.t Error) :=
  inOrder
    [supplied (ContentService.updates_title updates) Content.updateTitle;
     supplied (ContentService.updates_body updates) Content.updateBody;
     supplied (ContentService.updates_excerpt updates) Content.updateExcerpt]
    content.

(** The permission checks in a trace of the service. *)
Definition permissionChecks (trace : list (Invocation ServiceE))
    : list (Invocation PermissionsE) :=
  flat_map
    (fun i =>
       match i with
       | Invoke e =>
           match e with
           | Permissions check => [Invoke check]
           | _ => []
           end
       end)
    trace.

Definition isWrite {X} (e : RepositoryE X) : bool :=
  match e with
  | Save _ | SoftDelete _ | Delete _ => true
  | _ => false
  end.

(** The calls in a trace of the service that can change the repository. *)
Definition repositoryWrites (trace : list (Invocation ServiceE))
    : list (Invocation RepositoryE) :=
  flat_map
    (fun i =>
       match i with
       | Invoke e =>
           match e with
           | Repository call => if isWrite call then [Invoke call] else []
           | _ => []
           end
       end)
    trace.

(** An update in which every field given as the empty string is left out. *)
Definition withoutEmpty (field : option string) : option string :=
  if truthy field then field else None.

Definition withoutEmptyFields (updates : ContentService.Updates)
    : ContentService.Updates :=
  ContentService.mkUpdates
    (withoutEmpty (ContentService.updates_title updates))
    (withoutEmpty (ContentService.updates_body updates))
    (withoutEmpty (ContentService.updates_excerpt updates)).

(** A world whose repository holds one draft of "user-1" under
    "content-1", its excerpt derived from its body. *)
Definition draft1 : Content.t := sampleContent "content-1" ContentState.draft None.

Definition draftWorld : World :=
  mkWorld (snd (InMemoryContentRepository.save draft1 InMemoryContentRepository.empty))
          (clockFrom 5000).

Definition rewrittenBody : string :=
  "A rewritten body for the test content, again long enough to meet the minimum requirement of one hundred characters.".

(** ** Invariants

    Predicates on instances and on repository states that the operations
    are shown to keep; they are not part of the program. *)

(** The field constraints [Content.create] checks, and the timestamp every
    constructor call of the class sets. *)
Definition valid (content : Content.t) : Prop :=
  (5 <= String.length (Content.getTitle content)
   /\ String.length (Content.getTitle content) <= 100)
  /\ 100 <= String.length (Content.getBody content)
  /\ is_Some (Content.getUpdatedAt content).

(** Every entry of the map stands under the id of its content, and no key
    has two entries: the states a [Map] filled by [save] can be in. *)
Definition wellKeyed (this : InMemoryContentRepository.t) : Prop :=
  Forall (fun entry => fst entry = Content.getId (snd entry))
    (InMemoryContentRepository.contents this)
  /\ NoDup (List.map fst (InMemoryContentRepository.contents this)).

(** What the author and date criteria ask of a content.  An author given as
    the empty string asks nothing, and a date bound is met only by a content
    that has a [publishedAt]. *)
Definition meets (criteria : ContentSearchCriteria) (content : Content.t) : Prop :=
  (truthy (criteria_authorId criteria) = true ->
   Some (Content.getAuthorId content) = criteria_authorId criteria)
  /\ (forall afterDate,
        criteria_publishedAfter criteria = Some afterDate ->
        exists publishedAt,
          Content.getPublishedAt content = Some publishedAt
          /\ dateGe publishedAt afterDate = true)
  /\ (forall beforeDate,
        criteria_publishedBefore criteria = Some beforeDate ->
        exists publishedAt,
          Content.getPublishedAt content = Some publishedAt
          /\ dateLe publishedAt beforeDate = true).

(** The criteria without their [offset] and [limit]. *)
Definition unpaged (criteria : ContentSearchCriteria) : ContentSearchCriteria :=
  mkCriteria (criteria_authorId criteria) (criteria_state criteria)
    (criteria_featured criteria) (criteria_publishedAfter criteria)
    (criteria_publishedBefore criteria) None None.

(** A page of a list in terms of [take] and [drop]: skip [offset] records,
    or all but the last [-offset] when it is negative; then keep [limit]
    records, or all but the last [-limit] when it is negative, or all of
    them when it is missing or zero. *)
Definition pageOf {A} (offset limit : option Z) (all : list A) : list A :=
  let rest :=
    match offset with
    | Some o => drop (if (o <? 0)%Z then length all - Z.to_nat (- o) else Z.to_nat o) all
    | None => all
    end in
  match limit with
  | Some n =>
      if (n =? 0)%Z then rest
      else take (if (n <? 0)%Z then length rest - Z.to_nat (- n) else Z.to_nat n) rest
  | None => rest
  end.

(** * Properties *)

(** ** Running computations *)

Lemma run_bind {E S A B} (h : Handler E S) (p : Prog E A) (f : A -> Prog E B) (s : S) :
  run h (bind p f) s = run h (f (fst (run h p s))) (snd (run h p s)).
Proof.
  revert s. induction p as [a | X e k IH]; intros s; simpl; [reflexivity |].
  destruct (h X e s) as [x s']. apply IH.
Qed.

Lemma calls_bind {E S A B} (h : Handler E S) (p : Prog E A) (f : A -> Prog E B) (s : S) :
  calls h (bind p f) s
  = (calls h p s ++ calls h (f (fst (run h p s))) (snd (run h p s)))%list.
Proof.
  revert s. induction p as [a | X e k IH]; intros s; simpl; [reflexivity |].
  destruct (h X e s) as [x s']. simpl. f_equal. apply IH.
Qed.

(** ** The lifecycle states *)

Lemma isPublished_true (s : ContentState.t) :
  ContentState.isPublished s = true <-> s = ContentState.published.
Proof. destruct s; vm_compute; split; congruence. Qed.

Lemma isPublished_false (s : ContentState.t) :
  ContentState.isPublished s = false <-> s <> ContentState.published.
Proof. destruct s; vm_compute; split; congruence. Qed.

(** C2.  For every ordered pair of states, [canTransitionTo] answers [false]
    exactly on the pair archived, published; on every other pair, and so on
    every self-loop, it answers [true]. *)
Theorem canTransitionTo_single_forbidden_edge (a b : ContentState.t) :
  (ContentState.canTransitionTo a b = false
   <-> a = ContentState.archived /\ b = ContentState.published)
  /\ (ContentState.canTransitionTo a b = true
      <-> ~ (a = ContentState.archived /\ b = ContentState.published))
  /\ ContentState.canTransitionTo a a = true.
Proof.
  destruct a, b; vm_compute; intuition congruence.
Qed.

(** ** The entity *)

Lemma errorKind_titleError : errorKind Content.titleError = Some InvalidInput.
Proof. reflexivity. Qed.

Lemma errorKind_bodyError : errorKind Content.bodyError = Some InvalidInput.
Proof. reflexivity. Qed.

(** C4.  Whatever the clock says, [Content.create] succeeds exactly when the
    title has 5 to 100 characters and the body at least 100; with a shorter
    or longer title, or a shorter body, it returns an [InvalidInput] failure,
    which carries no instance. *)
Theorem create_succeeds_iff_lengths_valid
    (S : Type) (h : Handler ClockE S) (s : S) (props : Content.ContentProps) :
  let result := fst (run h (Content.create props) s) in
  let n := String.length (Content.props_title props) in
  let m := String.length (Content.props_body props) in
  (isOk result = true <-> (5 <= n /\ n <= 100) /\ 100 <= m)
  /\ (n < 5 \/ 100 < n \/ m < 100 <->
      exists error, result = err error /\ errorKind error = Some InvalidInput).
Proof.
  cbv zeta. unfold Content.create.
  destruct (Nat.ltb_spec (String.length (Content.props_title props)) 5) as [Ht5 | Ht5];
    [simpl; split; [split; [discriminate | lia] |
                    split; [eauto using errorKind_titleError | lia]] |].
  destruct (Nat.ltb_spec 100 (String.length (Content.props_title props))) as [Ht100 | Ht100];
    [simpl; split; [split; [discriminate | lia] |
                    split; [eauto using errorKind_titleError | lia]] |].
  destruct (Nat.ltb_spec (String.length (Content.props_body props)) 100) as [Hb | Hb];
    [simpl; split; [split; [discriminate | lia] |
                    split; [eauto using errorKind_bodyError | lia]] |].
  simpl. destruct (h Date NewDate s) as [now s']. simpl.
  split; [split; [lia | reflexivity] |].
  split; [lia | intros (error & Herr & _); discriminate].
Qed.

(** The instance [Content.create] builds. *)
Lemma create_value
    (S : Type) (h : Handler ClockE S) (s : S) (props : Content.ContentProps) created :
  fst (run h (Content.create props) s) = ok created ->
  Content.getId created = Content.props_id props
  /\ Content.getTitle created = Content.props_title props
  /\ Content.getBody created = Content.props_body props
  /\ Content.getAuthorId created = Content.props_authorId props
  /\ Content.getState created = Content.props_state props
  /\ Content.getPublishedAt created = Content.props_publishedAt props
  /\ Content.getExcerpt created =
       (if truthy (Content.props_excerpt props)
        then default "" (Content.props_excerpt props)
        else String.substring 0 150 (Content.props_body props)).
Proof.
  unfold Content.create.
  destruct (_ || _); [discriminate |].
  destruct (_ <? _); [discriminate |].
  simpl. destruct (h Date NewDate s) as [now s']. simpl.
  intros [= <-]. simpl. repeat split; reflexivity.
Qed.

(** C7.  Whatever the clock says, [updateBody newBody] succeeds when
    [newBody] has at least 100 characters, and then the new excerpt is the
    first 150 characters of [newBody] if the current excerpt is, as a string,
    equal to the first 150 characters of the old body, and is the current
    excerpt unchanged otherwise; with fewer than 100 characters it returns an
    [InvalidInput] failure. *)
Theorem updateBody_regenerates_derived_excerpt
    (S : Type) (h : Handler ClockE S) (s : S) (c : Content.t) (newBody : string) :
  let result := fst (run h (Content.updateBody newBody c) s) in
  (100 <= String.length newBody <->
     exists updated, result = ok updated
       /\ Content.getBody updated = newBody
       /\ (Content.getExcerpt c = String.substring 0 150 (Content.getBody c) ->
           Content.getExcerpt updated = String.substring 0 150 newBody)
       /\ (Content.getExcerpt c <> String.substring 0 150 (Content.getBody c) ->
           Content.getExcerpt updated = Content.getExcerpt c))
  /\ (String.length newBody < 100 <->
        exists error, result = err error /\ errorKind error = Some InvalidInput).
Proof.
  cbv zeta. unfold Content.updateBody.
  destruct (Nat.ltb_spec (String.length newBody) 100) as [Hb | Hb]; simpl.
  - split; [split; [lia | intros (updated & Hok & _); discriminate] |].
    split; [eauto using errorKind_bodyError | lia].
  - destruct (h Date NewDate s) as [now s']. simpl.
    split; [| split; [lia | intros (error & Herr & _); discriminate]].
    split; [intros _ | lia].
    eexists; split; [reflexivity |]. simpl.
    case_bool_decide; intuition congruence.
Qed.

(** ** The permission policy *)

(** C6.  [canDelete] answers [true] exactly when the role is "Admin", or the
    role is "Author" and the caller owns the content and it is not
    published, or the role is "Editor" and it is not published; so an Editor
    is never allowed to delete published content. *)
Theorem canDelete_policy (content : Content.t) (userId : UserId) (userRole : string) :
  (DefaultContentPermissions.canDelete content userId userRole = true <->
     userRole = "Admin"
     \/ (userRole = "Author"
         /\ Content.getAuthorId content = userId
         /\ Content.getState content <> ContentState.published)
     \/ (userRole = "Editor"
         /\ Content.getState content <> ContentState.published))
  /\ (Content.getState content = ContentState.published ->
      DefaultContentPermissions.canDelete content userId "Editor" = false).
Proof.
  unfold DefaultContentPermissions.canDelete, Content.isOwnedBy.
  pose proof (isPublished_false (Content.getState content)) as Hpub.
  split.
  - destruct (ContentState.isPublished (Content.getState content));
      repeat case_bool_decide; simpl; split; intros Hgoal;
      try reflexivity; try discriminate; subst;
      intuition (try congruence; try discriminate).
  - intros Hst. rewrite Hst. reflexivity.
Qed.

(** ** [publishedAt] *)

(** What one successful [changeState] does to [publishedAt]. *)
Lemma changeState_publishedAt
    (S : Type) (h : Handler ClockE S) (s : S) (c : Content.t)
    (newState : ContentState.t) (changed : Content.t) :
  fst (run h (Content.changeState newState c) s) = ok changed ->
  Content.getPublishedAt changed =
    if ContentState.isPublished newState && negb (defined (Content.getPublishedAt c))
    then Some (fst (h Date NewDate s))
    else Content.getPublishedAt c.
Proof.
  unfold Content.changeState.
  destruct (ContentState.canTransitionTo _ _); simpl; [| discriminate].
  destruct (ContentState.isPublished newState && _); simpl.
  - destruct (h Date NewDate s) as [stamp s1]. simpl.
    destruct (h Date NewDate s1) as [now s2]. simpl.
    intros [= <-]. reflexivity.
  - destruct (h Date NewDate s) as [now s1]. simpl.
    intros [= <-]. reflexivity.
Qed.

Lemma changeState_keeps_publishedAt
    (S : Type) (h : Handler ClockE S) (s : S) (c : Content.t) (d : Date)
    (newState : ContentState.t) (changed : Content.t) :
  Content.getPublishedAt c = Some d ->
  fst (run h (Content.changeState newState c) s) = ok changed ->
  Content.getPublishedAt changed = Some d.
Proof.
  intros Hset Hok. rewrite (changeState_publishedAt S h s c newState changed Hok).
  rewrite Hset. simpl. rewrite andb_false_r. reflexivity.
Qed.

Lemma successively_keeps_publishedAt
    (S : Type) (h : Handler ClockE S) (d : Date) (targets : list ContentState.t) :
  forall (s : S) (c changed : Content.t),
    Content.getPublishedAt c = Some d ->
    fst (run h (successively targets c) s) = ok changed ->
    Content.getPublishedAt changed = Some d.
Proof.
  induction targets as [| target targets IH]; intros s c changed Hset; simpl.
  - intros [= <-]. exact Hset.
  - rewrite run_bind.
    destruct (fst (run h (Content.changeState target c) s)) as [c1 | error] eqn:Hstep;
      simpl; [| discriminate].
    apply IH. eapply changeState_keeps_publishedAt; eassumption.
Qed.

(** C3.  Whatever the clock says: from an instance whose [publishedAt] is
    set, every successful [changeState], hence every successful [publish],
    [unpublish] and [archive], and every successful run of any number of
    them one after the other, returns an instance with that same
    [publishedAt]; a successful [changeState] returns a [publishedAt] other
    than the one it found only if that one was unset and the target is
    published, and then it is the clock's reading; so the field is stamped
    once, on the first successful transition into published that finds it
    unset, and is never cleared. *)
Theorem publishedAt_set_once (S : Type) (h : Handler ClockE S) (c : Content.t) :
  (forall d, Content.getPublishedAt c = Some d ->
     (forall s newState changed,
        fst (run h (Content.changeState newState c) s) = ok changed ->
        Content.getPublishedAt changed = Some d)
     /\ (forall s changed,
           fst (run h (Content.publish c) s) = ok changed
           \/ fst (run h (Content.unpublish c) s) = ok changed
           \/ fst (run h (Content.archive c) s) = ok changed ->
           Content.getPublishedAt changed = Some d)
     /\ (forall s targets changed,
           fst (run h (successively targets c) s) = ok changed ->
           Content.getPublishedAt changed = Some d))
  /\ (forall s newState changed,
        fst (run h (Content.changeState newState c) s) = ok changed ->
        (Content.getPublishedAt changed <> Content.getPublishedAt c ->
         Content.getPublishedAt c = None
         /\ newState = ContentState.published
         /\ Content.getPublishedAt changed = Some (fst (h Date NewDate s)))
        /\ (Content.getPublishedAt c = None ->
            newState = ContentState.published ->
            Content.getPublishedAt changed = Some (fst (h Date NewDate s)))
        /\ (Content.getPublishedAt changed = None ->
            Content.getPublishedAt c = None)).
Proof.
  split.
  - intros d Hset. split; [| split].
    + intros s newState changed. apply changeState_keeps_publishedAt. exact Hset.
    + intros s changed [Hok | [Hok | Hok]];
        revert Hok; apply changeState_keeps_publishedAt; exact Hset.
    + intros s targets changed. apply successively_keeps_publishedAt. exact Hset.
  - intros s newState changed Hok.
    pose proof (changeState_publishedAt S h s c newState changed Hok) as Hpub.
    pose proof (isPublished_true newState) as Hiff.
    destruct (ContentState.isPublished newState);
      destruct (Content.getPublishedAt c) as [d |]; simpl in Hpub;
      rewrite Hpub; repeat split; try congruence; try tauto; intuition congruence.
Qed.

(** A draft published at reading 1000, then unpublished, published again,
    archived and taken back to draft: [publishedAt] is still 1000. *)
Lemma publishedAt_set_once_witness :
  fst (run handleClock
         (successively
            [ContentState.private; ContentState.published;
             ContentState.archived; ContentState.draft]
            (sampleContent "content-1" ContentState.published (Some (DateAt 1000))))
         (clockFrom 2000))
  = ok (Content.mkContent "content-1" "Test Content" testBody "user-1"
          ContentState.draft (String.substring 0 150 testBody)
          (Some (DateAt 1000)) (Some (DateAt 2003)))
  /\ Content.getPublishedAt
       (Content.mkContent "content-1" "Test Content" testBody "user-1"
          ContentState.draft (String.substring 0 150 testBody)
          (Some (DateAt 1000)) (Some (DateAt 2003)))
     = Some (DateAt 1000).
Proof.
  split; [reflexivity |].
  apply (proj2 (proj2 (proj1
           (publishedAt_set_once _ handleClock
              (sampleContent "content-1" ContentState.published (Some (DateAt 1000))))
           (DateAt 1000) eq_refl)) (clockFrom 2000)
           [ContentState.private; ContentState.published;
            ContentState.archived; ContentState.draft]).
  reflexivity.
Defined.

(** ** The in-memory repository: deleting *)

(** C1.  In every repository state and for every id: [softDelete] succeeds
    exactly when the map holds a record under that id and the record is
    published, [delete] exactly when it holds one and the record is not
    published; on an id the map does not hold both fail with [NotFound]; on
    a stored record that is not published [softDelete] fails with
    [InvalidOperation], and on a stored published record [delete] does. *)
Theorem delete_is_split_by_publication
    (this : InMemoryContentRepository.t) (id : ContentId) :
  let stored := JsMap.get id (InMemoryContentRepository.contents this) in
  let soft := fst (InMemoryContentRepository.softDelete id this) in
  let hard := fst (InMemoryContentRepository.delete id this) in
  (isOk soft = true <->
     exists content, stored = Some content
       /\ Content.getState content = ContentState.published)
  /\ (isOk hard = true <->
        exists content, stored = Some content
          /\ Content.getState content <> ContentState.published)
  /\ (stored = None ->
      (exists error, soft = err error /\ errorKind error = Some NotFound)
      /\ (exists error, hard = err error /\ errorKind error = Some NotFound))
  /\ (forall content, stored = Some content ->
        Content.getState content <> ContentState.published ->
        exists error, soft = err error /\ errorKind error = Some InvalidOperation)
  /\ (forall content, stored = Some content ->
        Content.getState content = ContentState.published ->
        exists error, hard = err error /\ errorKind error = Some InvalidOperation).
Proof.
  cbv zeta.
  unfold InMemoryContentRepository.softDelete, InMemoryContentRepository.delete.
  destruct (JsMap.get id (InMemoryContentRepository.contents this)) as [content |].
  - pose proof (isPublished_true (Content.getState content)) as Hpub.
    pose proof (isPublished_false (Content.getState content)) as Hnot.
    destruct (ContentState.isPublished (Content.getState content)); simpl.
    + repeat split; try discriminate; try congruence.
      * intros _. exists content. tauto.
      * intros (c & [= <-] & Hc). tauto.
      * intros c [= <-] Hc. tauto.
      * intros c _ _. eexists. split; reflexivity.
    + repeat split; try discriminate; try congruence.
      * intros (c & [= <-] & Hc). destruct Hpub as [_ Hpub]. discriminate (Hpub Hc).
      * intros _. exists content. tauto.
      * intros c _ _. eexists. split; reflexivity.
      * intros c [= <-] Hc. destruct Hpub as [_ Hpub]. discriminate (Hpub Hc).
  - simpl. repeat split; try discriminate.
    + intros (c & Hc & _). discriminate.
    + intros (c & Hc & _). discriminate.
    + eexists. split; reflexivity.
    + eexists. split; reflexivity.
Qed.

(** ** The in-memory repository: tombstones *)

(** No method of the contract takes an id out of [deletedContents]. *)
Lemma handle_keeps_tombstones X (e : RepositoryE X) (this : InMemoryContentRepository.t) :
  InMemoryContentRepository.deletedContents this
  ⊆ InMemoryContentRepository.deletedContents
      (snd (InMemoryContentRepository.handle X e this)).
Proof.
  destruct e; simpl; try set_solver.
  - unfold InMemoryContentRepository.softDelete.
    destruct (JsMap.get id _) as [content |]; [| set_solver].
    destruct (negb _); simpl; set_solver.
  - unfold InMemoryContentRepository.delete.
    destruct (JsMap.get id _) as [content |]; [| set_solver].
    destruct (ContentState.isPublished _); simpl; set_solver.
Qed.

Lemma run_keeps_tombstones A (client : Prog RepositoryE A) :
  forall this : InMemoryContentRepository.t,
    InMemoryContentRepository.deletedContents this
    ⊆ InMemoryContentRepository.deletedContents
        (snd (run InMemoryContentRepository.handle client this)).
Proof.
  induction client as [a | X e k IH]; intros this; simpl; [set_solver |].
  pose proof (handle_keeps_tombstones X e this) as Hstep.
  destruct (InMemoryContentRepository.handle X e this) as [x this']. simpl in Hstep.
  specialize (IH x this'). set_solver.
Qed.

Lemma softDelete_adds_tombstone (id : ContentId) (this : InMemoryContentRepository.t) :
  fst (InMemoryContentRepository.softDelete id this) = ok tt ->
  id ∈ InMemoryContentRepository.deletedContents
         (snd (InMemoryContentRepository.softDelete id this)).
Proof.
  unfold InMemoryContentRepository.softDelete.
  destruct (JsMap.get id _) as [content |]; [| discriminate].
  destruct (negb _); simpl; [discriminate | set_solver].
Qed.

Lemma tombstone_hides (id : ContentId) (this : InMemoryContentRepository.t) :
  id ∈ InMemoryContentRepository.deletedContents this ->
  InMemoryContentRepository.findById id this = ok None
  /\ InMemoryContentRepository.exists_ id this = ok false.
Proof.
  intros Hin.
  unfold InMemoryContentRepository.findById, InMemoryContentRepository.exists_.
  rewrite (bool_decide_eq_true_2 _ Hin). simpl. rewrite andb_false_r. tauto.
Qed.

(** C9.  Once [softDelete id] has succeeded, whatever a client of the
    repository contract does afterwards, saving a content with the same id
    included, [findById id] answers the null success and [exists id] answers
    [false]: [save] leaves [deletedContents] as it is, and no method of the
    contract removes an id from it.  ([clear], the test helper of the class,
    is not a method of the contract.) *)
Theorem softDeleted_id_stays_invisible
    (this : InMemoryContentRepository.t) (id : ContentId) :
  fst (InMemoryContentRepository.softDelete id this) = ok tt ->
  let deleted := snd (InMemoryContentRepository.softDelete id this) in
  (forall content (r : InMemoryContentRepository.t),
     InMemoryContentRepository.deletedContents
       (snd (InMemoryContentRepository.save content r))
     = InMemoryContentRepository.deletedContents r)
  /\ (forall content,
        let resaved := snd (InMemoryContentRepository.save content deleted) in
        InMemoryContentRepository.findById id resaved = ok None
        /\ InMemoryContentRepository.exists_ id resaved = ok false)
  /\ (forall A (client : Prog RepositoryE A),
        let later := snd (run InMemoryContentRepository.handle client deleted) in
        InMemoryContentRepository.findById id later = ok None
        /\ InMemoryContentRepository.exists_ id later = ok false).
Proof.
  intros Hok deleted.
  pose proof (softDelete_adds_tombstone id this Hok) as Hin. fold deleted in Hin.
  split; [reflexivity |]. split.
  - intros content resaved. apply tombstone_hides. exact Hin.
  - intros A client later. apply tombstone_hides.
    apply (run_keeps_tombstones A client deleted). exact Hin.
Qed.

(** The limit of the statement: [clear] forgets the tombstones, so a save
    after it is visible again. *)
Remark clear_forgets_tombstones :
  InMemoryContentRepository.findById "content-1"
    (snd (InMemoryContentRepository.save
            (sampleContent "content-1" ContentState.draft None)
            (InMemoryContentRepository.clear
               (snd (InMemoryContentRepository.softDelete "content-1" onePublished)))))
  = ok (Some (sampleContent "content-1" ContentState.draft None)).
Proof. reflexivity. Qed.

(** The published "content-1" is soft-deleted, then a draft is saved under
    the same id: it cannot be found. *)
Lemma softDeleted_id_stays_invisible_witness :
  fst (InMemoryContentRepository.softDelete "content-1" onePublished) = ok tt
  /\ InMemoryContentRepository.findById "content-1"
       (snd (InMemoryContentRepository.save
               (sampleContent "content-1" ContentState.draft None)
               (snd (InMemoryContentRepository.softDelete "content-1" onePublished))))
     = ok None
  /\ InMemoryContentRepository.exists_ "content-1"
       (snd (InMemoryContentRepository.save
               (sampleContent "content-1" ContentState.draft None)
               (snd (InMemoryContentRepository.softDelete "content-1" onePublished))))
     = ok false.
Proof.
  split; [reflexivity |].
  apply (proj1 (proj2 (softDeleted_id_stays_invisible onePublished "content-1" eq_refl))
           (sampleContent "content-1" ContentState.draft None)).
Defined.

(** ** The in-memory repository: featured content *)

Section SortByKey.

Context {A : Type} (key : A -> Z).

Let compare (a b : A) : Z := (key b - key a)%Z.
Let descending (a b : A) : Prop := (key b <= key a)%Z.

Lemma insertBy_Forall (P : A -> Prop) (x : A) (l : list A) :
  P x -> Forall P l -> Forall P (JsArray.insertBy compare x l).
Proof.
  intros Hx Hl. induction Hl as [| y l Hy Hl IH]; simpl.
  - constructor; [exact Hx | constructor].
  - destruct (compare x y <=? 0)%Z.
    + constructor; [exact Hx |]. constructor; assumption.
    + constructor; assumption.
Qed.

Lemma sort_Forall (P : A -> Prop) (l : list A) :
  Forall P l -> Forall P (JsArray.sort compare l).
Proof.
  intros Hl. induction Hl as [| x l Hx Hl IH]; simpl; [constructor |].
  apply insertBy_Forall; assumption.
Qed.

Lemma insertBy_sorted (x : A) (l : list A) :
  StronglySorted descending l ->
  StronglySorted descending (JsArray.insertBy compare x l).
Proof.
  intros Hl. induction Hl as [| y l Hl IH Hy]; simpl.
  - constructor; constructor.
  - destruct (Z.leb_spec (compare x y) 0) as [Hle | Hgt]; unfold compare in *.
    + constructor; [constructor; assumption |].
      constructor; [unfold descending; lia |].
      eapply Forall_impl; [exact Hy |].
      unfold descending. intros z Hz. simpl in Hz. lia.
    + constructor; [exact IH |].
      apply insertBy_Forall; [unfold descending; lia | exact Hy].
Qed.

Lemma sort_sorted (l : list A) : StronglySorted descending (JsArray.sort compare l).
Proof.
  induction l as [| x l IH]; simpl; [constructor |].
  apply insertBy_sorted. exact IH.
Qed.

End SortByKey.

Lemma StronglySorted_take {A} (R : A -> A -> Prop) (n : nat) (l : list A) :
  StronglySorted R l -> StronglySorted R (take n l).
Proof.
  intros Hl. revert n. induction Hl as [| x l Hl IH Hx]; intros [| n]; simpl;
    try constructor; [apply IH | apply Forall_take; exact Hx].
Qed.

(** [l.slice(0, 5)] is the first five elements of [l], or all of them. *)
Lemma slice_0_5 {A} (l : list A) : JsArray.slice 0 (Some 5%Z) l = take 5 l.
Proof.
  unfold JsArray.slice. simpl.
  replace (Z.to_nat (0 `min` Z.of_nat (length l))) with 0 by lia.
  rewrite drop_0.
  destruct (Nat.le_gt_cases (length l) 5) as [Hle | Hgt].
  - rewrite (take_ge l 5 Hle). apply take_ge. lia.
  - f_equal. lia.
Qed.

Lemma filter_Forall {A} (f : A -> bool) (l : list A) :
  Forall (fun x => f x = true) (List.filter f l).
Proof.
  apply List.Forall_forall. intros x Hx. apply List.filter_In in Hx. tauto.
Qed.

Lemma filter_keeps_Forall {A} (P : A -> Prop) (f : A -> bool) (l : list A) :
  Forall P l -> Forall P (List.filter f l).
Proof.
  rewrite !List.Forall_forall. intros Hl x Hx. apply List.filter_In in Hx.
  apply Hl. tauto.
Qed.

Lemma StronglySorted_after {A} (R : A -> A -> Prop) (before after : list A) (a : A) :
  StronglySorted R (before ++ a :: after)%list -> Forall (R a) after.
Proof.
  induction before as [| x before IH]; simpl; intros Hsorted.
  - apply StronglySorted_inv in Hsorted. tauto.
  - apply StronglySorted_inv in Hsorted. apply IH. tauto.
Qed.

(** The claim of C8 as the specification words it fails on the repository
    [undatedAndPreEpoch]: the record with no [publishedAt] is listed before
    the one published before the epoch, so it is not ordered as the oldest. *)
Lemma findFeatured_missing_publishedAt_is_not_oldest :
  InMemoryContentRepository.findFeatured undatedAndPreEpoch = ok [undated; preEpoch]
  /\ ~ StronglySorted notOlderThan [undated; preEpoch].
Proof.
  split; [vm_compute; reflexivity |].
  intros Hsorted. apply StronglySorted_inv in Hsorted as [_ Hfirst].
  apply Forall_inv in Hfirst. exact Hfirst.
Qed.

(** C8, amended.  In every repository state [findFeatured] succeeds with at
    most 5 records, each of them stored, not soft-deleted and published,
    ordered by the time value of [publishedAt] descending, where a record
    with no [publishedAt] counts as published at the epoch (time value 0):
    every record listed after such a record has a time value of at most 0. *)
Theorem findFeatured_at_most_five_newest_first (this : InMemoryContentRepository.t) :
  exists featured,
    InMemoryContentRepository.findFeatured this = ok featured
    /\ length featured <= 5
    /\ Forall
         (fun content =>
            In content (JsMap.values (InMemoryContentRepository.contents this))
            /\ (Content.getId content ∉ InMemoryContentRepository.deletedContents this)
            /\ Content.getState content = ContentState.published)
         featured
    /\ StronglySorted notBefore featured
    /\ (forall before content after,
          featured = (before ++ content :: after)%list ->
          Content.getPublishedAt content = None ->
          Forall (fun later => (timeOrZero (Content.getPublishedAt later) <= 0)%Z) after).
Proof.
  unfold InMemoryContentRepository.findFeatured, InMemoryContentRepository.findPublished.
  rewrite slice_0_5.
  set (published := List.filter _ (List.filter _ _)).
  set (sorted := JsArray.sort InMemoryContentRepository.byPublishedAtDesc published).
  assert (Hsorted : StronglySorted notBefore (take 5 sorted)).
  { apply StronglySorted_take.
    apply (sort_sorted (fun content => timeOrZero (Content.getPublishedAt content))). }
  exists (take 5 sorted). split; [reflexivity |].
  split; [rewrite length_take; lia |].
  split; [| split; [exact Hsorted |]].
  - apply Forall_take.
    apply (sort_Forall (fun content => timeOrZero (Content.getPublishedAt content))).
    subst published.
    pose proof (filter_Forall
                  (fun content => ContentState.isPublished (Content.getState content))
                  (List.filter (InMemoryContentRepository.notDeleted this)
                     (JsMap.values (InMemoryContentRepository.contents this)))) as Hpub.
    pose proof (filter_keeps_Forall _
                  (fun content => ContentState.isPublished (Content.getState content)) _
                  (filter_Forall (InMemoryContentRepository.notDeleted this)
                     (JsMap.values (InMemoryContentRepository.contents this)))) as Hlive.
    assert (Hin : Forall
                    (fun content =>
                       In content (JsMap.values (InMemoryContentRepository.contents this)))
                    (List.filter
                       (fun content => ContentState.isPublished (Content.getState content))
                       (List.filter (InMemoryContentRepository.notDeleted this)
                          (JsMap.values (InMemoryContentRepository.contents this))))).
    { apply List.Forall_forall. intros x Hx.
      apply List.filter_In in Hx as [Hx _]. apply List.filter_In in Hx as [Hx _].
      exact Hx. }
    rewrite List.Forall_forall in *. intros content Hcontent.
    specialize (Hpub content Hcontent). specialize (Hlive content Hcontent).
    specialize (Hin content Hcontent). simpl in Hpub, Hlive.
    split; [exact Hin |]. split.
    + unfold InMemoryContentRepository.notDeleted in Hlive.
      apply negb_true_iff, bool_decide_eq_false in Hlive. exact Hlive.
    + apply isPublished_true. exact Hpub.
  - intros before content after Heq Hnone. rewrite Heq in Hsorted.
    apply StronglySorted_after in Hsorted.
    eapply Forall_impl; [exact Hsorted |].
    unfold notBefore. intros later Hlater. simpl in Hlater.
    rewrite Hnone in Hlater. exact Hlater.
Qed.

(** ** The service: [updateContent] *)

Ltac run_updateContent Hfind Hedit :=
  unfold ContentService.updateContent, ContentService.repository,
    ContentService.permissions, ContentService.entity, trigger, fieldUpdates, supplied;
  cbn -[InMemoryContentRepository.findById DefaultContentPermissions.canEdit
        InMemoryContentRepository.save truthy Content.updateTitle Content.updateBody
        Content.updateExcerpt];
  rewrite Hfind;
  cbn -[InMemoryContentRepository.findById DefaultContentPermissions.canEdit
        InMemoryContentRepository.save truthy Content.updateTitle Content.updateBody
        Content.updateExcerpt];
  rewrite Hedit;
  cbn -[InMemoryContentRepository.findById DefaultContentPermissions.canEdit
        InMemoryContentRepository.save truthy Content.updateTitle Content.updateBody
        Content.updateExcerpt];
  unfold Content.updateTitle, Content.updateBody, Content.updateExcerpt.

Ltac split_on_fields title body excerpt :=
  destruct (truthy title);
    [destruct ((String.length (default "" title) <? 5)
               || (100 <? String.length (default "" title))) |];
    (destruct (truthy body);
     [destruct (String.length (default "" body) <? 100) |]);
    destruct (truthy excerpt).

(** The outcome of [updateContent] on a content that is found and may be
    edited: the outcome of the field updates, saved if it is a success. *)
Lemma updateContent_run
    (w : World) (contentId : ContentId) (updates : ContentService.Updates)
    (userId : UserId) (userRole : string) (content : Content.t) :
  InMemoryContentRepository.findById contentId (repo w) = ok (Some content) ->
  DefaultContentPermissions.canEdit content userId userRole = true ->
  run container (ContentService.updateContent contentId updates userId userRole) w
  = let (outcome, readings) :=
      run handleClock (fieldUpdates updates content) (clock w) in
    match outcome with
    | err error => (err error, mkWorld (repo w) readings)
    | ok updated =>
        (ok updated,
         mkWorld (snd (InMemoryContentRepository.save updated (repo w))) readings)
    end.
Proof.
  intros Hfind Hedit. destruct w as [r readings]. simpl in Hfind.
  destruct updates as [title body excerpt].
  run_updateContent Hfind Hedit.
  split_on_fields title body excerpt;
    cbn -[InMemoryContentRepository.save]; reflexivity.
Qed.

(** The calls [updateContent] makes on its collaborators in that case. *)
Lemma updateContent_calls
    (w : World) (contentId : ContentId) (updates : ContentService.Updates)
    (userId : UserId) (userRole : string) (content : Content.t) :
  InMemoryContentRepository.findById contentId (repo w) = ok (Some content) ->
  DefaultContentPermissions.canEdit content userId userRole = true ->
  let trace :=
    calls container (ContentService.updateContent contentId updates userId userRole) w in
  permissionChecks trace = [Invoke (CanEdit content userId userRole)]
  /\ repositoryWrites trace =
       match fst (run handleClock (fieldUpdates updates content) (clock w)) with
       | err _ => []
       | ok updated => [Invoke (Save updated)]
       end.
Proof.
  intros Hfind Hedit. destruct w as [r readings]. simpl in Hfind.
  destruct updates as [title body excerpt]. cbv zeta.
  run_updateContent Hfind Hedit.
  split_on_fields title body excerpt;
    cbn -[InMemoryContentRepository.save]; split; reflexivity.
Qed.

(** What the field updates leave in each field, and when they succeed. *)
Lemma fieldUpdates_outcome
    (S : Type) (h : Handler ClockE S) (s : S)
    (updates : ContentService.Updates) (content : Content.t) :
  let title := ContentService.updates_title updates in
  let body := ContentService.updates_body updates in
  let excerpt := ContentService.updates_excerpt updates in
  let outcome := fst (run h (fieldUpdates updates content) s) in
  (isOk outcome = true <->
     (truthy title = true ->
      5 <= String.length (default "" title) /\ String.length (default "" title) <= 100)
     /\ (truthy body = true -> 100 <= String.length (default "" body)))
  /\ (forall updated, outcome = ok updated ->
        Content.getTitle updated =
          (if truthy title then default "" title else Content.getTitle content)
        /\ Content.getBody updated =
             (if truthy body then default "" body else Content.getBody content)
        /\ Content.getExcerpt updated =
             (if truthy excerpt then default "" excerpt
              else if truthy body
                      && bool_decide (Content.getExcerpt content
                                      = String.substring 0 150 (Content.getBody content))
              then String.substring 0 150 (default "" body)
              else Content.getExcerpt content)).
Proof.
  destruct updates as [title body excerpt]. cbv zeta.
  unfold fieldUpdates, supplied, Content.updateTitle, Content.updateBody,
    Content.updateExcerpt. simpl ContentService.updates_title.
  simpl ContentService.updates_body. simpl ContentService.updates_excerpt.
  destruct (truthy title);
    [destruct (Nat.ltb_spec (String.length (default "" title)) 5);
     [| destruct (Nat.ltb_spec 100 (String.length (default "" title)))] |];
    (destruct (truthy body);
     [destruct (Nat.ltb_spec (String.length (default "" body)) 100) |]);
    destruct (truthy excerpt);
    cbn;
    repeat (let now := fresh "now" in let s' := fresh "s" in
            destruct (h Date NewDate _) as [now s']; cbn);
    (split; [split; [try discriminate; intros _; split; intros; try discriminate; lia
                    | try reflexivity; intros [Ht Hb];
                      try (specialize (Ht eq_refl)); try (specialize (Hb eq_refl)); lia]
            | intros updated; try discriminate; intros [= <-]; cbn;
              repeat split; try reflexivity]).
Qed.

(** C5.  On a content the repository finds and the policy lets the caller
    edit, [updateContent] asks the policy once, [canEdit] on the content as
    found, and applies the supplied field updates in the order title, body,
    excerpt.  If one of them fails, the call returns that failure, writes
    nothing to the repository and leaves it as it was; if all succeed, it
    calls [save] once, with the content they produced, and returns it. *)
Theorem updateContent_all_or_nothing
    (w : World) (contentId : ContentId) (updates : ContentService.Updates)
    (userId : UserId) (userRole : string) (content : Content.t) :
  InMemoryContentRepository.findById contentId (repo w) = ok (Some content) ->
  DefaultContentPermissions.canEdit content userId userRole = true ->
  let call := ContentService.updateContent contentId updates userId userRole in
  let result := fst (run container call w) in
  let after := repo (snd (run container call w)) in
  let trace := calls container call w in
  permissionChecks trace = [Invoke (CanEdit content userId userRole)]
  /\ match fst (run handleClock (fieldUpdates updates content) (clock w)) with
     | err error =>
         result = err error
         /\ repositoryWrites trace = []
         /\ after = repo w
     | ok updated =>
         result = ok updated
         /\ repositoryWrites trace = [Invoke (Save updated)]
         /\ after = snd (InMemoryContentRepository.save updated (repo w))
     end.
Proof.
  intros Hfind Hedit. cbv zeta.
  destruct (updateContent_calls w contentId updates userId userRole content Hfind Hedit)
    as [Hchecks Hwrites].
  rewrite (updateContent_run w contentId updates userId userRole content Hfind Hedit).
  split; [exact Hchecks |]. rewrite Hwrites.
  destruct (run handleClock (fieldUpdates updates content) (clock w))
    as [[updated | error] readings]; simpl; repeat split; reflexivity.
Qed.

(** The author asks for a valid title and a body that is too short: the call
    fails with the body's failure and the repository is as before, the new
    title is not stored. *)
Lemma updateContent_all_or_nothing_witness :
  InMemoryContentRepository.findById "content-1" (repo draftWorld) = ok (Some draft1)
  /\ DefaultContentPermissions.canEdit draft1 "user-1" "Author" = true
  /\ fst (run container
            (ContentService.updateContent "content-1"
               (ContentService.mkUpdates (Some "Updated Title") (Some "Short") None)
               "user-1" "Author")
            draftWorld)
     = err Content.bodyError
  /\ repositoryWrites
       (calls container
          (ContentService.updateContent "content-1"
             (ContentService.mkUpdates (Some "Updated Title") (Some "Short") None)
             "user-1" "Author")
          draftWorld)
     = []
  /\ repo (snd (run container
                  (ContentService.updateContent "content-1"
                     (ContentService.mkUpdates (Some "Updated Title") (Some "Short") None)
                     "user-1" "Author")
                  draftWorld))
     = repo draftWorld.
Proof.
  split; [reflexivity |]. split; [reflexivity |].
  exact (proj2 (updateContent_all_or_nothing draftWorld "content-1"
                  (ContentService.mkUpdates (Some "Updated Title") (Some "Short") None)
                  "user-1" "Author" draft1 eq_refl eq_refl)).
Defined.

(** The order shows when two updates fail: a title and a body that are both
    too short yield the title's failure. *)
Remark updateContent_reports_title_first :
  fst (run container
         (ContentService.updateContent "content-1"
            (ContentService.mkUpdates (Some "Hi") (Some "Short") None)
            "user-1" "Author")
         draftWorld)
  = err Content.titleError.
Proof. reflexivity. Qed.

(** ** The service: empty strings in [updateContent] *)

(** A field given as the empty string and a field not given make the same
    call. *)
Lemma updateContent_withoutEmptyFields
    (contentId : ContentId) (updates : ContentService.Updates)
    (userId : UserId) (userRole : string) :
  ContentService.updateContent contentId (withoutEmptyFields updates) userId userRole
  = ContentService.updateContent contentId updates userId userRole.
Proof.
  destruct updates as [[[| a title] |] [[| b body] |] [[| c excerpt] |]]; reflexivity.
Qed.

(** The claim of C10 as worded fails on [draftWorld]: the author sends a new
    body and the empty string as excerpt; the excerpt is skipped, yet it does
    not keep its stored value, because the stored one was derived from the
    old body and the body update derives it again. *)
Lemma updateContent_skipped_excerpt_changes :
  exists updated,
    fst (run container
           (ContentService.updateContent "content-1"
              (ContentService.mkUpdates None (Some rewrittenBody) (Some ""))
              "user-1" "Author")
           draftWorld)
    = ok updated
    /\ InMemoryContentRepository.findById "content-1"
         (repo (snd (run container
                       (ContentService.updateContent "content-1"
                          (ContentService.mkUpdates None (Some rewrittenBody) (Some ""))
                          "user-1" "Author")
                       draftWorld)))
       = ok (Some updated)
    /\ InMemoryContentRepository.findById "content-1" (repo draftWorld) = ok (Some draft1)
    /\ Content.getExcerpt updated = rewrittenBody
    /\ Content.getExcerpt updated <> Content.getExcerpt draft1.
Proof.
  eexists. split; [vm_compute; reflexivity |].
  split; [vm_compute; reflexivity |].
  split; [vm_compute; reflexivity |].
  split; [vm_compute; reflexivity |].
  vm_compute. discriminate.
Qed.

(** C10, amended.  On a content the repository finds and the policy lets the
    caller edit, a field given as the empty string is treated as one not
    given, neither validated nor applied: the call is the call without it,
    so an empty title does not fail the length check, and an empty excerpt
    does not clear the excerpt.  The call succeeds exactly when the non-empty
    title and body pass their length checks, and then the result is persisted;
    in it every non-empty field has its new value, a skipped title or body
    has its stored value, and a skipped excerpt has its stored value unless a
    body is applied and the stored excerpt is the first 150 characters of the
    stored body, in which case it is the first 150 characters of the new
    body.  When the call fails the repository is as before. *)
Theorem updateContent_empty_field_is_absent
    (w : World) (contentId : ContentId) (updates : ContentService.Updates)
    (userId : UserId) (userRole : string) (content : Content.t) :
  InMemoryContentRepository.findById contentId (repo w) = ok (Some content) ->
  DefaultContentPermissions.canEdit content userId userRole = true ->
  let title := ContentService.updates_title updates in
  let body := ContentService.updates_body updates in
  let excerpt := ContentService.updates_excerpt updates in
  let call := ContentService.updateContent contentId updates userId userRole in
  let result := fst (run container call w) in
  let after := repo (snd (run container call w)) in
  run container call w
  = run container
      (ContentService.updateContent contentId (withoutEmptyFields updates) userId userRole)
      w
  /\ (isOk result = true <->
        (truthy title = true ->
         5 <= String.length (default "" title) /\ String.length (default "" title) <= 100)
        /\ (truthy body = true -> 100 <= String.length (default "" body)))
  /\ (isOk result = false -> after = repo w)
  /\ (forall updated, result = ok updated ->
        after = snd (InMemoryContentRepository.save updated (repo w))
        /\ (title = Some "" -> Content.getTitle updated = Content.getTitle content)
        /\ (body = Some "" -> Content.getBody updated = Content.getBody content)
        /\ (excerpt = Some "" ->
            Content.getExcerpt updated =
              if truthy body
                 && bool_decide (Content.getExcerpt content
                                 = String.substring 0 150 (Content.getBody content))
              then String.substring 0 150 (default "" body)
              else Content.getExcerpt content)
        /\ (truthy title = true -> Some (Content.getTitle updated) = title)
        /\ (truthy body = true -> Some (Content.getBody updated) = body)
        /\ (truthy excerpt = true -> Some (Content.getExcerpt updated) = excerpt)).
Proof.
  intros Hfind Hedit. cbv zeta.
  rewrite updateContent_withoutEmptyFields.
  rewrite (updateContent_run w contentId updates userId userRole content Hfind Hedit).
  pose proof (fieldUpdates_outcome _ handleClock (clock w) updates content) as Houtcome.
  cbv zeta in Houtcome. destruct Houtcome as [Hsucceeds Hfields].
  destruct (run handleClock (fieldUpdates updates content) (clock w))
    as [[updated | error] readings]; simpl in *.
  - split; [reflexivity |]. split; [exact Hsucceeds |].
    split; [discriminate |].
    intros updated' [= <-].
    destruct (Hfields updated eq_refl) as (Htitle & Hbody & Hexcerpt).
    split; [reflexivity |].
    split; [intros Hempty; rewrite Htitle, Hempty; reflexivity |].
    split; [intros Hempty; rewrite Hbody, Hempty; reflexivity |].
    split; [intros Hempty; rewrite Hexcerpt, Hempty; reflexivity |].
    split; [intros Hgiven; rewrite Htitle, Hgiven;
            destruct (ContentService.updates_title updates); [reflexivity | discriminate] |].
    split; [intros Hgiven; rewrite Hbody, Hgiven;
            destruct (ContentService.updates_body updates); [reflexivity | discriminate] |].
    intros Hgiven; rewrite Hexcerpt, Hgiven.
    destruct (ContentService.updates_excerpt updates); [reflexivity | discriminate].
  - split; [reflexivity |]. split; [exact Hsucceeds |].
    split; [reflexivity |]. intros updated'. discriminate.
Qed.

(** The author sends the empty string as title together with a new body: the
    call succeeds, the title's length check is not run. *)
Lemma updateContent_empty_field_is_absent_witness :
  InMemoryContentRepository.findById "content-1" (repo draftWorld) = ok (Some draft1)
  /\ DefaultContentPermissions.canEdit draft1 "user-1" "Author" = true
  /\ isOk (fst (run container
                  (ContentService.updateContent "content-1"
                     (ContentService.mkUpdates (Some "") (Some rewrittenBody) None)
                     "user-1" "Author")
                  draftWorld))
     = true.
Proof.
  split; [reflexivity |]. split; [reflexivity |].
  apply (proj1 (proj2 (updateContent_empty_field_is_absent draftWorld "content-1"
                         (ContentService.mkUpdates (Some "") (Some rewrittenBody) None)
                         "user-1" "Author" draft1 eq_refl eq_refl))).
  split.
  - intros Hgiven. discriminate Hgiven.
  - intros _. apply Nat.leb_le. reflexivity.
Defined.

(** ** The scenarios are states of the program *)

(** [sampleContent] is what [Content.create] builds from the props of the
    repository's tests when the clock reads 1. *)
Lemma sampleContent_is_created (id : ContentId) (state : ContentState.t)
    (publishedAt : option Date) :
  fst (run handleClock
         (Content.create
            (Content.mkProps id "Test Content" testBody "user-1" state None publishedAt None))
         (clockFrom 1))
  = ok (sampleContent id state publishedAt).
Proof. reflexivity. Qed.

(** ** Instances of the statements above *)

(** On the repository holding the published "content-1", [softDelete]
    succeeds and [delete] fails with [InvalidOperation]. *)
Lemma delete_is_split_by_publication_witness :
  isOk (fst (InMemoryContentRepository.softDelete "content-1" onePublished)) = true
  /\ exists error,
       fst (InMemoryContentRepository.delete "content-1" onePublished) = err error
       /\ errorKind error = Some InvalidOperation.
Proof.
  destruct (delete_is_split_by_publication onePublished "content-1")
    as (Hsoft & _ & _ & _ & Hhard).
  split.
  - apply Hsoft.
    exists (sampleContent "content-1" ContentState.published (Some (DateAt 1000))).
    split; reflexivity.
  - apply (Hhard (sampleContent "content-1" ContentState.published (Some (DateAt 1000))));
      reflexivity.
Defined.

(** The title "Hi" of the entity's tests is rejected as [InvalidInput]. *)
Lemma create_succeeds_iff_lengths_valid_witness :
  exists error,
    fst (run handleClock
           (Content.create
              (Content.mkProps "content-123" "Hi" testBody "user-456"
                 ContentState.draft None None None))
           (clockFrom 1))
    = err error
    /\ errorKind error = Some InvalidInput.
Proof.
  apply (proj1 (proj2 (create_succeeds_iff_lengths_valid _ handleClock (clockFrom 1)
                         (Content.mkProps "content-123" "Hi" testBody "user-456"
                            ContentState.draft None None None)))).
  left. apply Nat.ltb_lt. reflexivity.
Defined.

(** An Editor may not delete the published "content-1". *)
Lemma canDelete_policy_witness :
  DefaultContentPermissions.canDelete
    (sampleContent "content-1" ContentState.published (Some (DateAt 1000)))
    "user-2" "Editor"
  = false.
Proof.
  apply (proj2 (canDelete_policy
                  (sampleContent "content-1" ContentState.published (Some (DateAt 1000)))
                  "user-2" "Editor")).
  reflexivity.
Defined.

(** The excerpt of [draft1] was derived from its body, so a new body derives
    it again. *)
Lemma updateBody_regenerates_derived_excerpt_witness :
  exists updated,
    fst (run handleClock (Content.updateBody rewrittenBody draft1) (clockFrom 5000))
    = ok updated
    /\ Content.getBody updated = rewrittenBody
    /\ (Content.getExcerpt draft1 = String.substring 0 150 (Content.getBody draft1) ->
        Content.getExcerpt updated = String.substring 0 150 rewrittenBody)
    /\ (Content.getExcerpt draft1 <> String.substring 0 150 (Content.getBody draft1) ->
        Content.getExcerpt updated = Content.getExcerpt draft1).
Proof.
  apply (proj1 (proj1 (updateBody_regenerates_derived_excerpt _ handleClock
                         (clockFrom 5000) draft1 rewrittenBody))).
  apply Nat.leb_le. reflexivity.
Defined.

(** ** Further properties of the repository *)

Lemma JsMap_get_set_eq {V} (k : string) (v : V) (m : JsMap.t V) :
  JsMap.get k (JsMap.set k v m) = Some v.
Proof.
  induction m as [| [k' v'] m IH]; simpl.
  - rewrite bool_decide_eq_true_2; reflexivity.
  - case_bool_decide as Hk; simpl.
    + rewrite bool_decide_eq_true_2; reflexivity.
    + rewrite (bool_decide_eq_false_2 _ Hk). exact IH.
Qed.

Lemma JsMap_get_set_ne {V} (k k' : string) (v : V) (m : JsMap.t V) :
  k <> k' -> JsMap.get k' (JsMap.set k v m) = JsMap.get k' m.
Proof.
  intros Hne. induction m as [| [k0 v0] m IH]; simpl.
  - rewrite bool_decide_eq_false_2; [reflexivity | exact Hne].
  - case_bool_decide as Hk0; simpl.
    + subst k0. rewrite !(bool_decide_eq_false_2 _ Hne). reflexivity.
    + case_bool_decide; [reflexivity | exact IH].
Qed.

Lemma JsMap_get_delete_eq {V} (k : string) (m : JsMap.t V) :
  JsMap.get k (JsMap.delete k m) = None.
Proof.
  induction m as [| [k' v'] m IH]; simpl; [reflexivity |].
  case_bool_decide as Hk; simpl; [exact IH |].
  rewrite (bool_decide_eq_false_2 _ Hk). exact IH.
Qed.

Lemma JsMap_get_delete_ne {V} (k k' : string) (m : JsMap.t V) :
  k <> k' -> JsMap.get k' (JsMap.delete k m) = JsMap.get k' m.
Proof.
  intros Hne. induction m as [| [k0 v0] m IH]; simpl; [reflexivity |].
  case_bool_decide as Hk0; simpl.
  - subst k0. rewrite (bool_decide_eq_false_2 _ Hne) in *. exact IH.
  - case_bool_decide; [reflexivity | exact IH].
Qed.

Lemma findById_Some (id : ContentId) (this : InMemoryContentRepository.t)
    (content : Content.t) :
  InMemoryContentRepository.findById id this = ok (Some content) <->
  (id ∉ InMemoryContentRepository.deletedContents this)
  /\ JsMap.get id (InMemoryContentRepository.contents this) = Some content.
Proof.
  unfold InMemoryContentRepository.findById.
  case_bool_decide as Hin; split.
  - discriminate.
  - intros [Hout _]. contradiction.
  - intros [= Hget]. tauto.
  - intros [_ ->]. reflexivity.
Qed.

Lemma delete_then_invisible (this : InMemoryContentRepository.t) (id : ContentId) :
  fst (InMemoryContentRepository.delete id this) = ok tt ->
  InMemoryContentRepository.findById id (snd (InMemoryContentRepository.delete id this))
  = ok None
  /\ InMemoryContentRepository.exists_ id (snd (InMemoryContentRepository.delete id this))
     = ok false.
Proof.
  unfold InMemoryContentRepository.delete.
  destruct (JsMap.get id _) as [content |]; [| discriminate].
  destruct (ContentState.isPublished _); simpl; [discriminate |].
  intros _.
  unfold InMemoryContentRepository.findById, InMemoryContentRepository.exists_,
    JsMap.has. simpl.
  rewrite JsMap_get_delete_eq. simpl.
  destruct (bool_decide _); split; reflexivity.
Qed.

(** X1.  After a successful [softDelete] or [delete] of an id, [findById] answers
    the null success for it and [exists] answers [false]. *)
Theorem deleted_is_invisible (this : InMemoryContentRepository.t) (id : ContentId) :
  (fst (InMemoryContentRepository.softDelete id this) = ok tt ->
   let after := snd (InMemoryContentRepository.softDelete id this) in
   InMemoryContentRepository.findById id after = ok None
   /\ InMemoryContentRepository.exists_ id after = ok false)
  /\ (fst (InMemoryContentRepository.delete id this) = ok tt ->
      let after := snd (InMemoryContentRepository.delete id this) in
      InMemoryContentRepository.findById id after = ok None
      /\ InMemoryContentRepository.exists_ id after = ok false).
Proof.
  split.
  - intros Hok after. apply tombstone_hides. apply softDelete_adds_tombstone. exact Hok.
  - intros Hok after. apply delete_then_invisible. exact Hok.
Qed.

(** The draft "content-1" is hard-deleted and cannot be found afterwards. *)
Lemma deleted_is_invisible_witness :
  fst (InMemoryContentRepository.delete "content-1" (repo draftWorld)) = ok tt
  /\ InMemoryContentRepository.findById "content-1"
       (snd (InMemoryContentRepository.delete "content-1" (repo draftWorld)))
     = ok None
  /\ InMemoryContentRepository.exists_ "content-1"
       (snd (InMemoryContentRepository.delete "content-1" (repo draftWorld)))
     = ok false.
Proof.
  split; [reflexivity |].
  apply (proj2 (deleted_is_invisible (repo draftWorld) "content-1")).
  reflexivity.
Defined.

(** X2.  [save] is an upsert keyed by the content's id: the saved content is the
    one stored under its id, the other ids keep their records, and saving
    the same content twice is saving it once. *)
Theorem save_is_an_upsert (this : InMemoryContentRepository.t) (content : Content.t) :
  let saved := snd (InMemoryContentRepository.save content this) in
  fst (InMemoryContentRepository.save content this) = ok tt
  /\ JsMap.get (Content.getId content) (InMemoryContentRepository.contents saved)
     = Some content
  /\ (forall id, id <> Content.getId content ->
        JsMap.get id (InMemoryContentRepository.contents saved)
        = JsMap.get id (InMemoryContentRepository.contents this))
  /\ ((Content.getId content ∉ InMemoryContentRepository.deletedContents this) ->
      InMemoryContentRepository.findById (Content.getId content) saved
      = ok (Some content))
  /\ snd (InMemoryContentRepository.save content saved) = saved.
Proof.
  cbv zeta. unfold InMemoryContentRepository.save. simpl.
  split; [reflexivity |].
  split; [apply JsMap_get_set_eq |].
  split; [intros id Hne; apply JsMap_get_set_ne; congruence |].
  split.
  - intros Hout. apply findById_Some. simpl. split; [exact Hout |].
    apply JsMap_get_set_eq.
  - f_equal.
    induction (InMemoryContentRepository.contents this) as [| [k v] m IH]; simpl.
    + rewrite bool_decide_eq_true_2; reflexivity.
    + case_bool_decide as Hk; simpl.
      * rewrite bool_decide_eq_true_2; reflexivity.
      * rewrite (bool_decide_eq_false_2 _ Hk). f_equal. exact IH.
Qed.

(** ** Further properties of the service *)

(** X3.  [deleteContent] on a content that is found and may be deleted makes the
    one repository call that the repository accepts for it, [softDelete] if
    it is published and [delete] otherwise; the call succeeds and the id
    cannot be found afterwards. *)
Theorem deleteContent_is_accepted
    (w : World) (contentId : ContentId) (userId : UserId) (userRole : string)
    (content : Content.t) :
  InMemoryContentRepository.findById contentId (repo w) = ok (Some content) ->
  DefaultContentPermissions.canDelete content userId userRole = true ->
  let call := ContentService.deleteContent contentId userId userRole in
  let after := repo (snd (run container call w)) in
  fst (run container call w) = ok tt
  /\ repositoryWrites (calls container call w)
     = [if ContentState.isPublished (Content.getState content)
        then Invoke (SoftDelete contentId)
        else Invoke (Delete contentId)]
  /\ InMemoryContentRepository.findById contentId after = ok None
  /\ InMemoryContentRepository.exists_ contentId after = ok false.
Proof.
  intros Hfind Hdelete. destruct w as [r readings]. simpl in Hfind.
  pose proof (proj1 (findById_Some contentId r content) Hfind) as [_ Hget].
  cbv zeta.
  unfold ContentService.deleteContent, ContentService.repository,
    ContentService.permissions, trigger.
  cbn -[InMemoryContentRepository.findById DefaultContentPermissions.canDelete
        InMemoryContentRepository.softDelete InMemoryContentRepository.delete].
  rewrite Hfind.
  cbn -[InMemoryContentRepository.findById DefaultContentPermissions.canDelete
        InMemoryContentRepository.softDelete InMemoryContentRepository.delete].
  rewrite Hdelete.
  cbn -[InMemoryContentRepository.findById DefaultContentPermissions.canDelete
        InMemoryContentRepository.softDelete InMemoryContentRepository.delete].
  destruct (ContentState.isPublished (Content.getState content)) eqn:Hpub;
    cbn -[InMemoryContentRepository.findById InMemoryContentRepository.exists_
          InMemoryContentRepository.softDelete InMemoryContentRepository.delete].
  - assert (Hok : fst (InMemoryContentRepository.softDelete contentId r) = ok tt).
    { unfold InMemoryContentRepository.softDelete. rewrite Hget, Hpub. reflexivity. }
    pose proof (tombstone_hides contentId _ (softDelete_adds_tombstone contentId r Hok))
      as Hhidden.
    destruct (InMemoryContentRepository.softDelete contentId r) as [result r'].
    simpl in *. subst result. tauto.
  - assert (Hok : fst (InMemoryContentRepository.delete contentId r) = ok tt).
    { unfold InMemoryContentRepository.delete. rewrite Hget, Hpub. reflexivity. }
    pose proof (delete_then_invisible r contentId Hok) as Hhidden.
    destruct (InMemoryContentRepository.delete contentId r) as [result r'].
    simpl in *. subst result. tauto.
Qed.

(** The author deletes the draft "content-1". *)
Lemma deleteContent_is_accepted_witness :
  InMemoryContentRepository.findById "content-1" (repo draftWorld) = ok (Some draft1)
  /\ DefaultContentPermissions.canDelete draft1 "user-1" "Author" = true
  /\ fst (run container (ContentService.deleteContent "content-1" "user-1" "Author")
            draftWorld)
     = ok tt.
Proof.
  split; [reflexivity |]. split; [reflexivity |].
  exact (proj1 (deleteContent_is_accepted draftWorld "content-1" "user-1" "Author"
                  draft1 eq_refl eq_refl)).
Defined.

(** X4.  The outcomes of [publishContent]: [NotFound] when the repository finds
    nothing, [PermissionDenied] when the policy refuses, [IllegalTransition]
    when the content is archived, each leaving the repository as it was;
    otherwise the content is saved and returned in state published, with the
    [publishedAt] it had or, if it had none, the clock's reading. *)
Theorem publishContent_outcomes
    (w : World) (contentId : ContentId) (userId : UserId) (userRole : string) :
  let call := ContentService.publishContent contentId userId userRole in
  let result := fst (run container call w) in
  let after := repo (snd (run container call w)) in
  (InMemoryContentRepository.findById contentId (repo w) = ok None ->
   exists error, result = err error /\ errorKind error = Some NotFound /\ after = repo w)
  /\ (forall content,
        InMemoryContentRepository.findById contentId (repo w) = ok (Some content) ->
        (DefaultContentPermissions.canPublish content userId userRole = false ->
         exists error,
           result = err error /\ errorKind error = Some PermissionDenied /\ after = repo w)
        /\ (DefaultContentPermissions.canPublish content userId userRole = true ->
            Content.getState content = ContentState.archived ->
            exists error,
              result = err error /\ errorKind error = Some IllegalTransition
              /\ after = repo w)
        /\ (DefaultContentPermissions.canPublish content userId userRole = true ->
            Content.getState content <> ContentState.archived ->
            exists published,
              result = ok published
              /\ Content.getState published = ContentState.published
              /\ Content.getId published = Content.getId content
              /\ Content.getPublishedAt published
                 = Some (default (DateAt (clock w 0)) (Content.getPublishedAt content))
              /\ after = snd (InMemoryContentRepository.save published (repo w)))).
Proof.
  destruct w as [r readings]. cbv zeta.
  unfold ContentService.publishContent, ContentService.repository,
    ContentService.permissions, ContentService.entity, trigger, Content.publish,
    Content.changeState.
  cbn -[InMemoryContentRepository.findById DefaultContentPermissions.canPublish
        InMemoryContentRepository.save].
  split.
  - intros Hfind. rewrite Hfind. cbn. eexists. repeat split; reflexivity.
  - intros content Hfind. rewrite Hfind.
    cbn -[InMemoryContentRepository.findById DefaultContentPermissions.canPublish
          InMemoryContentRepository.save].
    split; [| split].
    + intros Hno. rewrite Hno. cbn. eexists. repeat split; reflexivity.
    + intros Hyes Hstate. rewrite Hyes, Hstate. cbn. eexists. repeat split; reflexivity.
    + intros Hyes Hstate. rewrite Hyes.
      destruct content as [cid title body author state excerpt publishedAt updatedAt].
      simpl in Hstate.
      destruct state; try contradiction; destruct publishedAt as [d |];
        cbn -[InMemoryContentRepository.save]; eexists; repeat split; reflexivity.
Qed.

(** The scenario of the specification: the author publishes the draft; the
    same call by "user-999" is refused. *)
Lemma publishContent_outcomes_witness :
  (exists published,
     fst (run container (ContentService.publishContent "content-1" "user-1" "Author")
            draftWorld)
     = ok published
     /\ Content.getState published = ContentState.published
     /\ Content.getId published = Content.getId draft1
     /\ Content.getPublishedAt published
        = Some (default (DateAt (clock draftWorld 0)) (Content.getPublishedAt draft1))
     /\ repo (snd (run container
                     (ContentService.publishContent "content-1" "user-1" "Author")
                     draftWorld))
        = snd (InMemoryContentRepository.save published (repo draftWorld)))
  /\ exists error,
       fst (run container (ContentService.publishContent "content-1" "user-999" "Author")
              draftWorld)
       = err error
       /\ errorKind error = Some PermissionDenied
       /\ repo (snd (run container
                       (ContentService.publishContent "content-1" "user-999" "Author")
                       draftWorld))
          = repo draftWorld.
Proof.
  split.
  - apply (proj2 (publishContent_outcomes draftWorld "content-1" "user-1" "Author")
             draft1 eq_refl); [reflexivity | discriminate].
  - apply (proj2 (publishContent_outcomes draftWorld "content-1" "user-999" "Author")
             draft1 eq_refl). reflexivity.
Defined.

(** X5.  [getContentByAuthor]: a caller always gets its own contents, an Editor
    or Admin those of any author, and every other caller a
    [PermissionDenied] failure. *)
Theorem getContentByAuthor_policy
    (w : World) (authorId requestingUserId : UserId) (userRole : string) :
  let result :=
    fst (run container
           (ContentService.getContentByAuthor authorId requestingUserId userRole) w) in
  (authorId = requestingUserId \/ userRole = "Editor" \/ userRole = "Admin" ->
   result = InMemoryContentRepository.findByAuthor authorId (repo w))
  /\ (authorId <> requestingUserId /\ userRole <> "Editor" /\ userRole <> "Admin" ->
      exists error, result = err error /\ errorKind error = Some PermissionDenied).
Proof.
  destruct w as [r readings]. cbv zeta. unfold ContentService.getContentByAuthor.
  repeat case_bool_decide; simpl; split;
    try (intros _; reflexivity);
    try (intros (Ha & He & Hd); congruence);
    try (intros [Ha | [He | Hd]]; congruence).
  intros _. eexists. split; reflexivity.
Qed.

(** "user-2" asks for the contents of "user-1" as an Author. *)
Lemma getContentByAuthor_policy_witness :
  exists error,
    fst (run container (ContentService.getContentByAuthor "user-1" "user-2" "Author")
           draftWorld)
    = err error
    /\ errorKind error = Some PermissionDenied.
Proof.
  apply (proj2 (getContentByAuthor_policy draftWorld "user-1" "user-2" "Author")).
  repeat split; discriminate.
Defined.

Lemma insertBy_length {A} (compare : A -> A -> Z) (x : A) (l : list A) :
  length (JsArray.insertBy compare x l) = S (length l).
Proof.
  induction l as [| y l IH]; simpl; [reflexivity |].
  destruct (compare x y <=? 0)%Z; simpl; [reflexivity | rewrite IH; reflexivity].
Qed.

Lemma sort_length {A} (compare : A -> A -> Z) (l : list A) :
  length (JsArray.sort compare l) = length l.
Proof.
  induction l as [| x l IH]; [reflexivity |].
  change (JsArray.sort compare (x :: l))
    with (JsArray.insertBy compare x (JsArray.sort compare l)).
  rewrite insertBy_length, IH. reflexivity.
Qed.

(** X6.  [canAddFeaturedContent] answers whether fewer than 5 published records
    are visible, and changes nothing. *)
Theorem canAddFeaturedContent_cap (w : World) :
  exists published,
    InMemoryContentRepository.findPublished None (repo w) = ok published
    /\ fst (run container ContentService.canAddFeaturedContent w)
       = ok (length published <? 5)
    /\ snd (run container ContentService.canAddFeaturedContent w) = w.
Proof.
  destruct w as [r readings].
  unfold ContentService.canAddFeaturedContent, ContentService.repository, trigger.
  cbn -[InMemoryContentRepository.findPublished JsArray.slice JsArray.sort Nat.ltb].
  unfold InMemoryContentRepository.countFeatured, InMemoryContentRepository.findFeatured.
  destruct (InMemoryContentRepository.findPublished None r) as [published | error] eqn:Hpub;
    [| discriminate Hpub].
  exists published. split; [reflexivity |].
  rewrite slice_0_5, length_take, sort_length. cbn [fst snd].
  split; [| reflexivity]. f_equal.
  destruct (Nat.ltb_spec (length published) 5);
    destruct (Nat.ltb_spec (5 `min` length published) 5); try reflexivity; lia.
Qed.

(** ** Further properties of the entity and of the policy *)

Ltac evaluate_states :=
  repeat match goal with
    | |- context [ContentState.canTransitionTo ?a ?b] =>
        let v := eval vm_compute in (ContentState.canTransitionTo a b) in
        change (ContentState.canTransitionTo a b) with v
    | |- context [ContentState.isPublished ?a] =>
        let v := eval vm_compute in (ContentState.isPublished a) in
        change (ContentState.isPublished a) with v
    | |- context [Content.transitionError ?a ?b] =>
        let v := eval vm_compute in (Content.transitionError a b) in
        change (Content.transitionError a b) with v
    end.



(** X8.  No mutator reassigns [id] or [authorId]. *)
Theorem mutators_keep_identity
    (S : Type) (h : Handler ClockE S) (s : S) (c changed : Content.t) (text : string)
    (newState : ContentState.t) :
  fst (run h (Content.updateTitle text c) s) = ok changed
  \/ fst (run h (Content.updateBody text c) s) = ok changed
  \/ fst (run h (Content.updateExcerpt text c) s) = ok changed
  \/ fst (run h (Content.changeState newState c) s) = ok changed ->
  Content.getId changed = Content.getId c
  /\ Content.getAuthorId changed = Content.getAuthorId c.
Proof.
  unfold Content.updateTitle, Content.updateBody, Content.updateExcerpt.
  intros [Hok | [Hok | [Hok | Hok]]].
  - destruct (_ || _); [discriminate |]. simpl in Hok.
    destruct (h Date NewDate s) as [now s']. injection Hok as <-. split; reflexivity.
  - destruct (_ <? _); [discriminate |]. simpl in Hok.
    destruct (h Date NewDate s) as [now s']. injection Hok as <-. split; reflexivity.
  - simpl in Hok.
    destruct (h Date NewDate s) as [now s']. injection Hok as <-. split; reflexivity.
  - unfold Content.changeState in Hok.
    destruct (negb _); [discriminate |].
    destruct (_ && _); simpl in Hok.
    + destruct (h Date NewDate s) as [stamp s1]. simpl in Hok.
      destruct (h Date NewDate s1) as [now s2]. injection Hok as <-. split; reflexivity.
    + destruct (h Date NewDate s) as [now s1]. injection Hok as <-. split; reflexivity.
Qed.

(** A new title on [draft1] leaves its id and author. *)
Lemma mutators_keep_identity_witness :
  Content.getId
    (Content.mkContent "content-1" "Updated Title" testBody "user-1" ContentState.draft
       (String.substring 0 150 testBody) None (Some (DateAt 5000)))
  = Content.getId draft1
  /\ Content.getAuthorId
       (Content.mkContent "content-1" "Updated Title" testBody "user-1" ContentState.draft
          (String.substring 0 150 testBody) None (Some (DateAt 5000)))
     = Content.getAuthorId draft1.
Proof.
  apply (mutators_keep_identity _ handleClock (clockFrom 5000) draft1 _
           "Updated Title" ContentState.draft).
  left. reflexivity.
Defined.

(** X9.  [canEdit] and [canPublish] are one rule: an Author on its own content, or
    an Editor or Admin on any. *)
Theorem canEdit_canPublish_policy
    (content : Content.t) (userId : UserId) (userRole : string) :
  (DefaultContentPermissions.canEdit content userId userRole = true <->
     (userRole = "Author" /\ Content.getAuthorId content = userId)
     \/ userRole = "Editor" \/ userRole = "Admin")
  /\ DefaultContentPermissions.canPublish content userId userRole
     = DefaultContentPermissions.canEdit content userId userRole.
Proof.
  unfold DefaultContentPermissions.canEdit, DefaultContentPermissions.canPublish,
    Content.isOwnedBy.
  split; [| reflexivity].
  repeat case_bool_decide; simpl; split; intros Hgoal;
    try reflexivity; try discriminate; subst;
    intuition (try congruence; try discriminate).
Qed.

(** ** The value object [ContentState] *)

Lemma substring_0_0 (s : string) : String.substring 0 0 s = "".
Proof. destruct s; reflexivity. Qed.

Lemma errorKind_invalidState (tag : string) :
  errorKind (mkError ("Invalid content state: " ++ tag)) = Some InvalidState.
Proof.
  unfold errorKind, hasPrefix.
  cbn [message String.length].
  change (String.substring 0 23 ("Invalid content state: " ++ tag))
    with ("Invalid content state: " ++ String.substring 0 0 tag).
  change (String.substring 0 19 ("Invalid content state: " ++ tag))
    with "Invalid content sta".
  rewrite substring_0_0.
  rewrite (bool_decide_eq_false_2 (_ = "Title must be between 5 and 100 characters"))
    by discriminate.
  rewrite (bool_decide_eq_false_2 (_ = "Body must be at least 100 characters"))
    by discriminate.
  rewrite (bool_decide_eq_false_2 (_ = "Cannot transition from ")) by discriminate.
  rewrite (bool_decide_eq_false_2 (_ = "Content not found")) by discriminate.
  rewrite (bool_decide_eq_false_2 (_ = "Permission denied: ")) by discriminate.
  rewrite (bool_decide_eq_false_2 (_ = "Only published content can be soft deleted"))
    by discriminate.
  rewrite (bool_decide_eq_false_2 (_ = "Published content cannot be hard deleted"))
    by discriminate.
  reflexivity.
Qed.

(** X10.  [ContentState.create] accepts exactly the four tags: it returns
    the state whose [getValue] is the tag, so [getValue] and [create] are
    inverse to each other, and on every other string it fails with the
    [InvalidState] failure that cites the string.  [equals] holds exactly
    between equal states, and each state satisfies exactly its own one of
    the four predicates. *)
Theorem ContentState_create_getValue (tag : string) (a b : ContentState.t) :
  ContentState.create (ContentState.getValue a) = ok a
  /\ (ContentState.create tag = ok a <-> ContentState.getValue a = tag)
  /\ ((forall s, ContentState.getValue s <> tag) <->
      ContentState.create tag = err (mkError ("Invalid content state: " ++ tag)))
  /\ errorKind (mkError ("Invalid content state: " ++ tag)) = Some InvalidState
  /\ (ContentState.equals a b = true <-> a = b)
  /\ (ContentState.isDraft a = true <-> a = ContentState.draft)
  /\ (ContentState.isPublished a = true <-> a = ContentState.published)
  /\ (ContentState.isPrivate a = true <-> a = ContentState.private)
  /\ (ContentState.isArchived a = true <-> a = ContentState.archived).
Proof.
  assert (Hcreate : forall s, ContentState.create (ContentState.getValue s) = ok s)
    by (intros []; reflexivity).
  assert (Hfound : forall s, ContentState.create tag = ok s -> ContentState.getValue s = tag).
  { intros s. unfold ContentState.create, ContentState.validStates. simpl.
    repeat (case_bool_decide; [intros [= <-]; assumption |]). discriminate. }
  assert (Hmissed : (forall s, ContentState.getValue s <> tag) ->
                    ContentState.create tag
                    = err (mkError ("Invalid content state: " ++ tag))).
  { intros Hnone. unfold ContentState.create, ContentState.validStates. simpl.
    pose proof (Hnone ContentState.draft) as Hdraft.
    pose proof (Hnone ContentState.published) as Hpublished.
    pose proof (Hnone ContentState.private) as Hprivate.
    pose proof (Hnone ContentState.archived) as Harchived.
    simpl in Hdraft, Hpublished, Hprivate, Harchived.
    rewrite (bool_decide_eq_false_2 _ Hdraft), (bool_decide_eq_false_2 _ Hpublished),
      (bool_decide_eq_false_2 _ Hprivate), (bool_decide_eq_false_2 _ Harchived).
    reflexivity. }
  split; [apply Hcreate |].
  split; [split; [apply Hfound | intros <-; apply Hcreate] |].
  split; [split; [exact Hmissed | intros Herr s Hs; subst tag;
                                  rewrite Hcreate in Herr; discriminate] |].
  split; [apply errorKind_invalidState |].
  repeat split; destruct a; try destruct b; vm_compute; congruence.
Qed.

(** ** The lifecycle as a whole *)

(** X11.  Whatever the clock says and whatever the state of a content is,
    archived included, changing its state to draft or to private and then to
    any target succeeds and ends in the target: the refusal of the step from
    archived to published does not keep an archived content from being
    published through [unpublish] and then [publish]. *)
Theorem every_state_is_reached_in_two_steps
    (S : Type) (h : Handler ClockE S) (s : S) (c : Content.t)
    (target : ContentState.t) :
  (exists changed,
     fst (run h (successively [ContentState.draft; target] c) s) = ok changed
     /\ Content.getState changed = target)
  /\ (exists changed,
        fst (run h (successively [ContentState.private; target] c) s) = ok changed
        /\ Content.getState changed = target)
  /\ (exists published,
        fst (run h
               (unpublished <- Content.unpublish c ;;
                match unpublished with
                | err error => Ret (err error)
                | ok content => Content.publish content
                end)
               s)
        = ok published
        /\ Content.getState published = ContentState.published).
Proof.
  unfold Content.unpublish, Content.publish, successively, Content.changeState.
  destruct (Content.getState c), target;
    repeat first
      [ progress evaluate_states
      | progress cbn
      | match goal with
        | |- context [h Date NewDate ?x] =>
            let now := fresh "now" in
            let s' := fresh "s" in
            destruct (h Date NewDate x) as [now s']
        | |- context [defined (Content.getPublishedAt c)] =>
            destruct (defined (Content.getPublishedAt c))
        end ];
    repeat split; eexists; split; reflexivity.
Qed.

(** ** The field constraints as an invariant of the instances *)

Lemma substring_0_length (n : nat) (s : string) :
  String.length (String.substring 0 n s) = n `min` String.length s.
Proof.
  revert n. induction s as [| c s IH]; intros [| n]; simpl; try reflexivity.
  rewrite IH. reflexivity.
Qed.

(** X12.  Whatever the clock says, every instance [Content.create] returns
    satisfies the field constraints (title of 5 to 100 characters, body of
    at least 100, [updatedAt] set), and every instance a successful
    [updateTitle], [updateBody], [updateExcerpt] or [changeState] returns
    from an instance that satisfies them satisfies them too: no sequence of
    calls on the class yields an instance that violates them. *)
Theorem instances_stay_valid (S : Type) (h : Handler ClockE S) (s : S) :
  (forall props created,
     fst (run h (Content.create props) s) = ok created -> valid created)
  /\ (forall c changed text newState,
        valid c ->
        fst (run h (Content.updateTitle text c) s) = ok changed
        \/ fst (run h (Content.updateBody text c) s) = ok changed
        \/ fst (run h (Content.updateExcerpt text c) s) = ok changed
        \/ fst (run h (Content.changeState newState c) s) = ok changed ->
        valid changed).
Proof.
  unfold valid. split.
  - intros props created. unfold Content.create.
    destruct (Nat.ltb_spec (String.length (Content.props_title props)) 5);
      [discriminate |].
    destruct (Nat.ltb_spec 100 (String.length (Content.props_title props)));
      [discriminate |].
    destruct (Nat.ltb_spec (String.length (Content.props_body props)) 100);
      [discriminate |].
    simpl. destruct (h Date NewDate s) as [now s']. simpl.
    intros [= <-]. simpl. eauto.
  - intros c changed text newState ((Hlow & Hhigh) & Hbody & Hstamp).
    unfold Content.updateTitle, Content.updateBody, Content.updateExcerpt,
      Content.changeState.
    intros [Hok | [Hok | [Hok | Hok]]].
    + destruct (Nat.ltb_spec (String.length text) 5); [discriminate |].
      destruct (Nat.ltb_spec 100 (String.length text)); [discriminate |].
      simpl in Hok. destruct (h Date NewDate s) as [now s'].
      injection Hok as <-. simpl. eauto.
    + destruct (Nat.ltb_spec (String.length text) 100); [discriminate |].
      simpl in Hok. destruct (h Date NewDate s) as [now s'].
      injection Hok as <-. simpl. eauto.
    + simpl in Hok. destruct (h Date NewDate s) as [now s'].
      injection Hok as <-. simpl. eauto.
    + destruct (negb _); [discriminate |].
      destruct (_ && _); simpl in Hok.
      * destruct (h Date NewDate s) as [stamp s1]. simpl in Hok.
        destruct (h Date NewDate s1) as [now s2].
        injection Hok as <-. simpl. eauto.
      * destruct (h Date NewDate s) as [now s1].
        injection Hok as <-. simpl. eauto.
Qed.

(** X13.  The excerpt of a created instance is never empty: it is the
    excerpt of the props when that is a non-empty string, and otherwise,
    when it is missing or the empty string, the first 150 characters of the
    body, which are at least 100 characters.  Its [updatedAt] is the one of
    the props when they give one, and the clock's reading otherwise. *)
Theorem create_derives_missing_excerpt
    (S : Type) (h : Handler ClockE S) (s : S)
    (props : Content.ContentProps) (created : Content.t) :
  fst (run h (Content.create props) s) = ok created ->
  Content.getExcerpt created <> ""
  /\ (truthy (Content.props_excerpt props) = true ->
      Some (Content.getExcerpt created) = Content.props_excerpt props)
  /\ (truthy (Content.props_excerpt props) = false ->
      Content.getExcerpt created = String.substring 0 150 (Content.props_body props)
      /\ String.length (Content.getExcerpt created)
         = 150 `min` String.length (Content.props_body props)
      /\ 100 <= String.length (Content.getExcerpt created))
  /\ Content.getUpdatedAt created
     = Some (default (fst (h Date NewDate s)) (Content.props_updatedAt props)).
Proof.
  unfold Content.create.
  destruct (_ || _); [discriminate |].
  destruct (Nat.ltb_spec (String.length (Content.props_body props)) 100) as [| Hbody];
    [discriminate |].
  simpl. destruct (h Date NewDate s) as [now s']. simpl.
  intros [= <-]. simpl.
  destruct (Content.props_excerpt props) as [[| first rest] |]; simpl.
  - rewrite substring_0_length.
    assert (Hsome : String.length
                      (String.substring 0 150 (Content.props_body props)) <> 0)
      by (rewrite substring_0_length; lia).
    repeat split; try discriminate; try lia.
    intros Hempty. rewrite Hempty in Hsome. apply Hsome. reflexivity.
  - repeat split; discriminate.
  - rewrite substring_0_length.
    assert (Hsome : String.length
                      (String.substring 0 150 (Content.props_body props)) <> 0)
      by (rewrite substring_0_length; lia).
    repeat split; try discriminate; try lia.
    intros Hempty. rewrite Hempty in Hsome. apply Hsome. reflexivity.
Qed.

(** Props with the empty string as excerpt: the excerpt is derived from the
    body. *)
Lemma create_derives_missing_excerpt_witness :
  fst (run handleClock
         (Content.create
            (Content.mkProps "content-1" "Test Content" testBody "user-1"
               ContentState.draft (Some "") None None))
         (clockFrom 1))
  = ok draft1
  /\ Content.getExcerpt draft1 = String.substring 0 150 testBody.
Proof.
  split; [reflexivity |].
  apply (proj1 (proj2 (proj2 (create_derives_missing_excerpt _ handleClock (clockFrom 1)
                                (Content.mkProps "content-1" "Test Content" testBody "user-1"
                                   ContentState.draft (Some "") None None)
                                draft1 eq_refl)))).
  reflexivity.
Defined.

(** ** The map of the repository *)

Lemma JsMap_set_keys {V} (k k' : string) (v : V) (m : JsMap.t V) :
  In k' (List.map fst (JsMap.set k v m)) <-> k' = k \/ In k' (List.map fst m).
Proof.
  induction m as [| [k0 v0] m IH]; simpl.
  - intuition congruence.
  - case_bool_decide as Hk; simpl.
    + subst k0. intuition congruence.
    + rewrite IH. intuition congruence.
Qed.

Lemma JsMap_set_NoDup {V} (k : string) (v : V) (m : JsMap.t V) :
  NoDup (List.map fst m) -> NoDup (List.map fst (JsMap.set k v m)).
Proof.
  induction m as [| [k0 v0] m IH]; simpl; intros Hm.
  - constructor; [intros Hin; inversion Hin | constructor].
  - apply NoDup_cons in Hm as [Hk0 Hm].
    case_bool_decide as Hk; simpl.
    + subst k0. apply NoDup_cons_2; assumption.
    + apply NoDup_cons_2; [| apply IH; exact Hm].
      rewrite list_elem_of_In, JsMap_set_keys. rewrite list_elem_of_In in Hk0.
      intros [-> | Hin]; [apply Hk; reflexivity | contradiction].
Qed.

Lemma JsMap_set_Forall {V} (P : string * V -> Prop) (k : string) (v : V) (m : JsMap.t V) :
  P (k, v) -> Forall P m -> Forall P (JsMap.set k v m).
Proof.
  intros Hnew Hm. induction Hm as [| [k0 v0] m H0 Hm IH]; simpl.
  - constructor; [exact Hnew | constructor].
  - case_bool_decide; constructor; assumption.
Qed.

Lemma JsMap_delete_NoDup {V} (k : string) (m : JsMap.t V) :
  NoDup (List.map fst m) -> NoDup (List.map fst (JsMap.delete k m)).
Proof.
  induction m as [| [k0 v0] m IH]; simpl; intros Hm; [exact Hm |].
  apply NoDup_cons in Hm as [Hk0 Hm].
  destruct (negb _); simpl; [| apply IH; exact Hm].
  apply NoDup_cons_2; [| apply IH; exact Hm].
  rewrite list_elem_of_In in *. intros Hin. apply Hk0.
  apply List.in_map_iff in Hin as (entry & Hfst & Hin).
  apply List.filter_In in Hin as [Hin _].
  apply List.in_map_iff. exists entry. split; assumption.
Qed.

Lemma JsMap_get_In {V} (k : string) (v : V) (m : JsMap.t V) :
  JsMap.get k m = Some v -> In (k, v) m.
Proof.
  induction m as [| [k0 v0] m IH]; simpl; [discriminate |].
  case_bool_decide as Hk.
  - intros [= <-]. subst k0. left. reflexivity.
  - intros Hget. right. apply IH. exact Hget.
Qed.

Lemma JsMap_In_get {V} (k : string) (v : V) (m : JsMap.t V) :
  NoDup (List.map fst m) -> In (k, v) m -> JsMap.get k m = Some v.
Proof.
  induction m as [| [k0 v0] m IH]; simpl; intros Hm Hin; [contradiction |].
  apply NoDup_cons in Hm as [Hk0 Hm].
  case_bool_decide as Hk.
  - destruct Hin as [[= _ <-] | Hin]; [reflexivity |].
    exfalso. apply Hk0. subst k0. rewrite list_elem_of_In.
    apply List.in_map_iff. exists (k, v). split; [reflexivity | exact Hin].
  - destruct Hin as [[= <- _] | Hin]; [contradiction |].
    apply IH; assumption.
Qed.

Lemma handle_keeps_wellKeyed X (e : RepositoryE X) (this : InMemoryContentRepository.t) :
  wellKeyed this -> wellKeyed (snd (InMemoryContentRepository.handle X e this)).
Proof.
  intros [Hkeys Hnodup]. destruct e; simpl; try (split; assumption).
  - split; simpl.
    + apply JsMap_set_Forall; [reflexivity | exact Hkeys].
    + apply JsMap_set_NoDup. exact Hnodup.
  - unfold InMemoryContentRepository.softDelete.
    destruct (JsMap.get id _) as [content |]; [| split; assumption].
    destruct (negb _); split; assumption.
  - unfold InMemoryContentRepository.delete.
    destruct (JsMap.get id _) as [content |]; [| split; assumption].
    destruct (ContentState.isPublished _); [split; assumption |].
    split; simpl.
    + apply filter_keeps_Forall. exact Hkeys.
    + apply JsMap_delete_NoDup. exact Hnodup.
Qed.

Lemma run_keeps_wellKeyed A (client : Prog RepositoryE A) :
  forall this : InMemoryContentRepository.t,
    wellKeyed this ->
    wellKeyed (snd (run InMemoryContentRepository.handle client this)).
Proof.
  induction client as [a | X e k IH]; intros this Hthis; simpl; [exact Hthis |].
  pose proof (handle_keeps_wellKeyed X e this Hthis) as Hstep.
  destruct (InMemoryContentRepository.handle X e this) as [x this'].
  apply IH. exact Hstep.
Qed.

Lemma wellKeyed_stored (this : InMemoryContentRepository.t) (content : Content.t) :
  wellKeyed this ->
  (In content (JsMap.values (InMemoryContentRepository.contents this)) <->
   JsMap.get (Content.getId content) (InMemoryContentRepository.contents this)
   = Some content).
Proof.
  intros [Hkeys Hnodup]. unfold JsMap.values. split.
  - intros Hin. apply List.in_map_iff in Hin as ([k c] & Hsnd & Hin).
    simpl in Hsnd. subst c.
    rewrite List.Forall_forall in Hkeys. pose proof (Hkeys _ Hin) as Hk.
    simpl in Hk. subst k. apply JsMap_In_get; assumption.
  - intros Hget. apply JsMap_get_In in Hget.
    apply List.in_map_iff. exists (Content.getId content, content).
    split; [reflexivity | exact Hget].
Qed.

Lemma found_under_its_id (this : InMemoryContentRepository.t) (id : ContentId)
    (content : Content.t) :
  wellKeyed this ->
  InMemoryContentRepository.findById id this = ok (Some content) ->
  Content.getId content = id.
Proof.
  intros [Hkeys _] Hfind.
  apply findById_Some in Hfind as [_ Hget].
  apply JsMap_get_In in Hget.
  rewrite List.Forall_forall in Hkeys. symmetry. exact (Hkeys _ Hget).
Qed.

(** X14.  The empty repository is well keyed, and whatever a client of the
    contract does keeps it so: every entry stands under the id of its
    content and no id has two entries.  In such a state [findById id]
    returns only a content whose id is [id]. *)
Theorem repository_stays_well_keyed :
  wellKeyed InMemoryContentRepository.empty
  /\ (forall A (client : Prog RepositoryE A) this,
        wellKeyed this ->
        wellKeyed (snd (run InMemoryContentRepository.handle client this)))
  /\ (forall this id content,
        wellKeyed this ->
        InMemoryContentRepository.findById id this = ok (Some content) ->
        Content.getId content = id).
Proof.
  split; [split; simpl; constructor |].
  split; [intros A client this; apply run_keeps_wellKeyed |].
  intros this id content [Hkeys _] Hfind.
  apply findById_Some in Hfind as [_ Hget].
  apply JsMap_get_In in Hget.
  rewrite List.Forall_forall in Hkeys. symmetry. exact (Hkeys _ Hget).
Qed.

(** X15.  [exists] and [findById] agree: [exists id] answers [true] exactly
    when [findById id] returns a content, and [false] exactly when it
    returns the null success. *)
Theorem exists_agrees_with_findById
    (this : InMemoryContentRepository.t) (id : ContentId) :
  (InMemoryContentRepository.exists_ id this = ok true <->
     exists content, InMemoryContentRepository.findById id this = ok (Some content))
  /\ (InMemoryContentRepository.exists_ id this = ok false <->
        InMemoryContentRepository.findById id this = ok None).
Proof.
  unfold InMemoryContentRepository.exists_, InMemoryContentRepository.findById,
    JsMap.has.
  destruct (bool_decide _); destruct (JsMap.get id _) as [content |]; simpl;
    repeat split; try discriminate; try reflexivity; eauto;
    intros (c & Hc); discriminate.
Qed.

(** ** Writes touch one id *)

(** X16.  A write on one id leaves every other id as it was: after
    [save content], [softDelete id] or [delete id], whether it succeeded or
    not, [findById] and [exists] answer for every other id what they
    answered before.  A soft delete erases nothing from the map, and a hard
    delete leaves no tombstone. *)
Theorem writes_touch_one_id
    (this : InMemoryContentRepository.t) (id other : ContentId) (content : Content.t) :
  (other <> Content.getId content ->
   let after := snd (InMemoryContentRepository.save content this) in
   InMemoryContentRepository.findById other after
   = InMemoryContentRepository.findById other this
   /\ InMemoryContentRepository.exists_ other after
      = InMemoryContentRepository.exists_ other this)
  /\ (other <> id ->
      let after := snd (InMemoryContentRepository.softDelete id this) in
      InMemoryContentRepository.findById other after
      = InMemoryContentRepository.findById other this
      /\ InMemoryContentRepository.exists_ other after
         = InMemoryContentRepository.exists_ other this)
  /\ (other <> id ->
      let after := snd (InMemoryContentRepository.delete id this) in
      InMemoryContentRepository.findById other after
      = InMemoryContentRepository.findById other this
      /\ InMemoryContentRepository.exists_ other after
         = InMemoryContentRepository.exists_ other this)
  /\ InMemoryContentRepository.contents
       (snd (InMemoryContentRepository.softDelete id this))
     = InMemoryContentRepository.contents this
  /\ InMemoryContentRepository.deletedContents
       (snd (InMemoryContentRepository.delete id this))
     = InMemoryContentRepository.deletedContents this.
Proof.
  unfold InMemoryContentRepository.findById, InMemoryContentRepository.exists_,
    JsMap.has.
  split; [| split; [| split; [| split]]].
  - intros Hne. simpl. rewrite JsMap_get_set_ne by congruence. split; reflexivity.
  - intros Hne. unfold InMemoryContentRepository.softDelete.
    destruct (JsMap.get id _) as [stored |]; [| split; reflexivity].
    destruct (negb _); simpl; [split; reflexivity |].
    assert (Hsame : bool_decide
                      (other ∈ {[id]} ∪ InMemoryContentRepository.deletedContents this)
                    = bool_decide
                        (other ∈ InMemoryContentRepository.deletedContents this)).
    { apply bool_decide_ext. rewrite elem_of_union, elem_of_singleton. tauto. }
    rewrite Hsame. split; reflexivity.
  - intros Hne. unfold InMemoryContentRepository.delete.
    destruct (JsMap.get id _) as [stored |]; [| split; reflexivity].
    destruct (ContentState.isPublished _); simpl; [split; reflexivity |].
    rewrite JsMap_get_delete_ne by congruence. split; reflexivity.
  - unfold InMemoryContentRepository.softDelete.
    destruct (JsMap.get id _) as [stored |]; [| reflexivity].
    destruct (negb _); reflexivity.
  - unfold InMemoryContentRepository.delete.
    destruct (JsMap.get id _) as [stored |]; [| reflexivity].
    destruct (ContentState.isPublished _); reflexivity.
Qed.

(** ** The finders and [findById] *)

(** X17.  In a well-keyed repository the finders return exactly what
    [findById] can find: a content is in [getAll] exactly when [findById]
    of its id returns it, in [findByAuthor author] exactly when moreover
    its author is [author], and in [findPublished] with no criteria exactly
    when moreover it is published. *)
Theorem finders_agree_with_findById
    (this : InMemoryContentRepository.t) (content : Content.t) (author : UserId) :
  wellKeyed this ->
  let found :=
    InMemoryContentRepository.findById (Content.getId content) this = ok (Some content) in
  (In content (InMemoryContentRepository.getAll this) <-> found)
  /\ (exists byAuthor,
        InMemoryContentRepository.findByAuthor author this = ok byAuthor
        /\ (In content byAuthor <-> found /\ Content.getAuthorId content = author))
  /\ (exists published,
        InMemoryContentRepository.findPublished None this = ok published
        /\ (In content published <->
            found /\ Content.getState content = ContentState.published)).
Proof.
  intros Hkeyed found.
  assert (Hvisible : In content (InMemoryContentRepository.getAll this) <-> found).
  { unfold found, InMemoryContentRepository.getAll. rewrite findById_Some.
    rewrite List.filter_In, (wellKeyed_stored this content Hkeyed).
    unfold InMemoryContentRepository.notDeleted.
    rewrite negb_true_iff, bool_decide_eq_false. tauto. }
  split; [exact Hvisible |]. split.
  - eexists. split; [reflexivity |].
    rewrite List.filter_In. fold (InMemoryContentRepository.getAll this).
    rewrite Hvisible, bool_decide_eq_true. reflexivity.
  - eexists. split; [reflexivity |].
    rewrite List.filter_In. fold (InMemoryContentRepository.getAll this).
    rewrite Hvisible, isPublished_true. reflexivity.
Qed.

(** In [draftWorld] the draft is what [getAll] lists. *)
Lemma finders_agree_with_findById_witness :
  wellKeyed (repo draftWorld)
  /\ In draft1 (InMemoryContentRepository.getAll (repo draftWorld)).
Proof.
  assert (Hkeyed : wellKeyed (repo draftWorld)).
  { split; simpl.
    - constructor; [reflexivity | constructor].
    - apply NoDup_singleton. }
  split; [exact Hkeyed |].
  apply (proj1 (finders_agree_with_findById (repo draftWorld) draft1 "user-1" Hkeyed)).
  reflexivity.
Defined.

(** ** The finders with criteria *)

Lemma In_take {A} (x : A) (n : nat) (l : list A) : In x (take n l) -> In x l.
Proof.
  revert n. induction l as [| y l IH]; intros [| n]; simpl; try tauto.
  intros [-> | Hin]; [left; reflexivity | right; eapply IH; exact Hin].
Qed.

Lemma In_drop {A} (x : A) (n : nat) (l : list A) : In x (drop n l) -> In x l.
Proof.
  revert n. induction l as [| y l IH]; intros [| n]; simpl; try tauto.
  intros Hin. right. eapply IH. exact Hin.
Qed.

Lemma In_slice {A} (x : A) (start : Z) (end_ : option Z) (l : list A) :
  In x (JsArray.slice start end_ l) -> In x l.
Proof.
  unfold JsArray.slice. intros Hin. apply In_take in Hin. apply In_drop in Hin.
  exact Hin.
Qed.

Lemma In_paginate (criteria : ContentSearchCriteria) (content : Content.t)
    (l : list Content.t) :
  In content (InMemoryContentRepository.paginate criteria l) -> In content l.
Proof.
  unfold InMemoryContentRepository.paginate.
  destruct (truthyNumber (criteria_limit criteria));
    destruct (truthyNumber (criteria_offset criteria)); intros Hin;
    repeat apply In_slice in Hin; exact Hin.
Qed.

Lemma paginate_unpaged (criteria : ContentSearchCriteria) (l : list Content.t) :
  InMemoryContentRepository.paginate (unpaged criteria) l = l.
Proof. reflexivity. Qed.

Lemma In_byAuthor (criteria : ContentSearchCriteria) (content : Content.t)
    (l : list Content.t) :
  In content (InMemoryContentRepository.byAuthor criteria l)
  <-> In content l
      /\ (truthy (criteria_authorId criteria) = true ->
          Some (Content.getAuthorId content) = criteria_authorId criteria).
Proof.
  unfold InMemoryContentRepository.byAuthor.
  destruct (truthy (criteria_authorId criteria)).
  - rewrite List.filter_In, bool_decide_eq_true. tauto.
  - split; [intros Hin; split; [exact Hin | discriminate] | tauto].
Qed.

Lemma publishedSince_true (afterDate : Date) (content : Content.t) :
  InMemoryContentRepository.publishedSince afterDate content = true
  <-> exists publishedAt,
        Content.getPublishedAt content = Some publishedAt
        /\ dateGe publishedAt afterDate = true.
Proof.
  unfold InMemoryContentRepository.publishedSince.
  destruct (Content.getPublishedAt content) as [publishedAt |]; split.
  - intros Hge. exists publishedAt. split; [reflexivity | exact Hge].
  - intros (d & [= <-] & Hge). exact Hge.
  - discriminate.
  - intros (d & Hnone & _). discriminate.
Qed.

Lemma publishedUntil_true (beforeDate : Date) (content : Content.t) :
  InMemoryContentRepository.publishedUntil beforeDate content = true
  <-> exists publishedAt,
        Content.getPublishedAt content = Some publishedAt
        /\ dateLe publishedAt beforeDate = true.
Proof.
  unfold InMemoryContentRepository.publishedUntil.
  destruct (Content.getPublishedAt content) as [publishedAt |]; split.
  - intros Hle. exists publishedAt. split; [reflexivity | exact Hle].
  - intros (d & [= <-] & Hle). exact Hle.
  - discriminate.
  - intros (d & Hnone & _). discriminate.
Qed.

Lemma In_byWindow (criteria : ContentSearchCriteria) (content : Content.t)
    (l : list Content.t) :
  In content (InMemoryContentRepository.byWindow criteria l)
  <-> In content l
      /\ (forall afterDate,
            criteria_publishedAfter criteria = Some afterDate ->
            exists publishedAt,
              Content.getPublishedAt content = Some publishedAt
              /\ dateGe publishedAt afterDate = true)
      /\ (forall beforeDate,
            criteria_publishedBefore criteria = Some beforeDate ->
            exists publishedAt,
              Content.getPublishedAt content = Some publishedAt
              /\ dateLe publishedAt beforeDate = true).
Proof.
  unfold InMemoryContentRepository.byWindow.
  destruct (criteria_publishedBefore criteria) as [beforeDate |];
    destruct (criteria_publishedAfter criteria) as [afterDate |];
    rewrite ?List.filter_In, ?publishedSince_true, ?publishedUntil_true; split.
  - intros ((Hin & Hafter) & Hbefore). split; [exact Hin |].
    split; intros d [= <-]; assumption.
  - intros (Hin & Hafter & Hbefore). split; [split |]; eauto.
  - intros (Hin & Hbefore). split; [exact Hin |].
    split; [discriminate | intros d [= <-]; assumption].
  - intros (Hin & _ & Hbefore). split; eauto.
  - intros (Hin & Hafter). split; [exact Hin |].
    split; [intros d [= <-]; assumption | discriminate].
  - intros (Hin & Hafter & _). split; eauto.
  - intros Hin. split; [exact Hin |]. split; discriminate.
  - tauto.
Qed.

Lemma In_byState (criteria : ContentSearchCriteria) (content : Content.t)
    (l : list Content.t) :
  In content (InMemoryContentRepository.byState criteria l)
  <-> In content l
      /\ (forall state, criteria_state criteria = Some state ->
            Content.getState content = state).
Proof.
  unfold InMemoryContentRepository.byState.
  destruct (criteria_state criteria) as [state |].
  - rewrite List.filter_In. unfold ContentState.equals.
    rewrite bool_decide_eq_true. split.
    + intros [Hin Heq]. split; [exact Hin |]. intros state' [= <-].
      destruct (Content.getState content), state; simpl in Heq; congruence.
    + intros [Hin Heq]. split; [exact Hin |]. rewrite (Heq state eq_refl). reflexivity.
  - split; [intros Hin; split; [exact Hin | discriminate] | tauto].
Qed.

(** X18.  Every content [findPublished] returns under criteria is visible
    (stored, not soft-deleted), published, and meets the author and date
    criteria; every content [search] returns is visible, in the state the
    criteria name if they name one, and meets the author and date criteria.
    Without [offset] and [limit] each returns all such contents.
    [findPublished] does not look at the [state] criterion, and neither of
    them at [featured]. *)
Theorem criteria_are_honoured
    (this : InMemoryContentRepository.t) (criteria : ContentSearchCriteria)
    (content : Content.t) :
  (exists page all,
     InMemoryContentRepository.findPublished (Some criteria) this = ok page
     /\ InMemoryContentRepository.findPublished (Some (unpaged criteria)) this = ok all
     /\ (In content page -> In content all)
     /\ (In content all <->
         In content (InMemoryContentRepository.getAll this)
         /\ Content.getState content = ContentState.published
         /\ meets criteria content))
  /\ (exists page all,
        InMemoryContentRepository.search criteria this = ok page
        /\ InMemoryContentRepository.search (unpaged criteria) this = ok all
        /\ (In content page -> In content all)
        /\ (In content all <->
            In content (InMemoryContentRepository.getAll this)
            /\ (forall state, criteria_state criteria = Some state ->
                  Content.getState content = state)
            /\ meets criteria content)).
Proof.
  unfold InMemoryContentRepository.findPublished, InMemoryContentRepository.search.
  fold (InMemoryContentRepository.getAll this). unfold meets.
  split; do 2 eexists; (split; [reflexivity |]); (split; [reflexivity |]);
    rewrite paginate_unpaged; (split; [apply In_paginate |]).
  - rewrite In_byWindow, In_byAuthor, List.filter_In, isPublished_true.
    simpl. tauto.
  - rewrite In_byWindow, In_byState, In_byAuthor. simpl. tauto.
Qed.

(** ** Pagination *)

Lemma slice_from {A} (o : Z) (l : list A) :
  JsArray.slice o None l
  = drop (if (o <? 0)%Z then length l - Z.to_nat (- o) else Z.to_nat o) l.
Proof.
  unfold JsArray.slice. cbv zeta.
  destruct (Z.ltb_spec o 0) as [Hneg | Hpos].
  - replace (Z.to_nat ((Z.of_nat (length l) + o) `max` 0)) with (length l - Z.to_nat (- o))
      by lia.
    apply take_ge. rewrite length_drop. lia.
  - destruct (Z.le_gt_cases o (Z.of_nat (length l))) as [Hin | Hout].
    + replace (Z.to_nat (o `min` Z.of_nat (length l))) with (Z.to_nat o) by lia.
      apply take_ge. rewrite length_drop. lia.
    + rewrite (drop_ge l (Z.to_nat o)) by lia.
      rewrite (drop_ge l (Z.to_nat (o `min` Z.of_nat (length l)))) by lia.
      apply take_nil.
Qed.

Lemma slice_upto {A} (n : Z) (l : list A) :
  JsArray.slice 0 (Some n) l
  = take (if (n <? 0)%Z then length l - Z.to_nat (- n) else Z.to_nat n) l.
Proof.
  unfold JsArray.slice. cbv zeta.
  change (0 <? 0)%Z with false. cbv iota.
  replace (Z.to_nat (0 `min` Z.of_nat (length l))) with 0 by lia.
  rewrite drop_0.
  destruct (Z.ltb_spec n 0) as [Hneg | Hpos].
  - f_equal. lia.
  - destruct (Z.le_gt_cases n (Z.of_nat (length l))) as [Hin | Hout].
    + f_equal. lia.
    + rewrite (take_ge l (Z.to_nat n)) by lia. apply take_ge. lia.
Qed.

Lemma paginate_pageOf (criteria : ContentSearchCriteria) (l : list Content.t) :
  InMemoryContentRepository.paginate criteria l
  = pageOf (criteria_offset criteria) (criteria_limit criteria) l.
Proof.
  unfold InMemoryContentRepository.paginate, pageOf, truthyNumber.
  destruct (criteria_offset criteria) as [o |], (criteria_limit criteria) as [n |];
    simpl.
  - destruct (Z.eqb_spec o 0) as [-> | Ho], (Z.eqb_spec n 0) as [-> | Hn]; simpl;
      rewrite ?slice_upto, ?slice_from; reflexivity.
  - destruct (Z.eqb_spec o 0) as [-> | Ho]; simpl; rewrite ?slice_from; reflexivity.
  - destruct (Z.eqb_spec n 0) as [-> | Hn]; simpl; rewrite ?slice_upto; reflexivity.
  - reflexivity.
Qed.

(** X19.  [findPublished] and [search] cut their page out of the matching
    contents with the offset first and the limit second: they skip [offset]
    contents and return the next [limit], so never more than [limit] of
    them.  A limit of 0 is no limit, and a negative offset counts from the
    end of the matching contents. *)
Theorem pages_are_offset_then_limit
    (this : InMemoryContentRepository.t) (criteria : ContentSearchCriteria) :
  (exists all,
     InMemoryContentRepository.findPublished (Some (unpaged criteria)) this = ok all
     /\ InMemoryContentRepository.findPublished (Some criteria) this
        = ok (pageOf (criteria_offset criteria) (criteria_limit criteria) all))
  /\ (exists all,
        InMemoryContentRepository.search (unpaged criteria) this = ok all
        /\ InMemoryContentRepository.search criteria this
           = ok (pageOf (criteria_offset criteria) (criteria_limit criteria) all))
  /\ (forall (all : list Content.t) o n,
        (0 <= o)%Z -> (0 < n)%Z ->
        pageOf (Some o) (Some n) all = take (Z.to_nat n) (drop (Z.to_nat o) all)
        /\ length (pageOf (Some o) (Some n) all) <= Z.to_nat n)
  /\ (forall (all : list Content.t) offset,
        pageOf offset (Some 0%Z) all = pageOf offset None all)
  /\ (forall (all : list Content.t) o,
        (o < 0)%Z ->
        pageOf (Some o) None all = drop (length all - Z.to_nat (- o)) all).
Proof.
  split; [| split; [| split; [| split]]].
  - eexists. split; [reflexivity |].
    unfold InMemoryContentRepository.findPublished.
    rewrite paginate_unpaged, paginate_pageOf. reflexivity.
  - eexists. split; [reflexivity |].
    unfold InMemoryContentRepository.search.
    rewrite paginate_unpaged, paginate_pageOf. reflexivity.
  - intros all o n Ho Hn. unfold pageOf.
    destruct (Z.ltb_spec o 0); [lia |].
    destruct (Z.eqb_spec n 0); [lia |].
    destruct (Z.ltb_spec n 0); [lia |].
    split; [reflexivity |]. rewrite length_take. lia.
  - intros all offset. reflexivity.
  - intros all o Ho. unfold pageOf.
    destruct (Z.ltb_spec o 0); [reflexivity | lia].
Qed.

(** X20.  [getPublishedContent page limit] returns from the visible
    published contents the page that starts at [(page - 1) * limit] and has
    [limit] contents, with page 1 and limit 10 when they are not given, and
    changes nothing.  For page and limit of at least 1 these are the
    contents number [(page - 1) * limit] to [page * limit - 1]; with a limit
    of 0 every page is the whole list, and page 0 is the last [limit]
    contents. *)
Theorem getPublishedContent_pages (w : World) :
  exists published,
    InMemoryContentRepository.findPublished None (repo w) = ok published
    /\ (forall page limit,
          run container (ContentService.getPublishedContent page limit) w
          = (ok (pageOf (Some ((default 1 page - 1) * default 10 limit)%Z)
                   (Some (default 10%Z limit)) published),
             w))
    /\ (forall page limit,
          (1 <= page)%Z -> (1 <= limit)%Z ->
          pageOf (Some ((page - 1) * limit)%Z) (Some limit) published
          = take (Z.to_nat limit) (drop (Z.to_nat (page - 1) * Z.to_nat limit) published))
    /\ (forall page,
          pageOf (Some ((page - 1) * 0)%Z) (Some 0%Z) published = published)
    /\ (forall limit,
          (1 <= limit)%Z ->
          pageOf (Some ((0 - 1) * limit)%Z) (Some limit) published
          = drop (length published - Z.to_nat limit) published).
Proof.
  destruct w as [r readings]. eexists. split; [reflexivity |].
  split; [| split; [| split]].
  - intros page limit.
    unfold ContentService.getPublishedContent, ContentService.repository, trigger.
    cbn -[InMemoryContentRepository.findPublished pageOf Z.mul Z.sub].
    unfold InMemoryContentRepository.findPublished.
    rewrite paginate_pageOf. reflexivity.
  - intros page limit Hpage Hlimit. unfold pageOf.
    destruct (Z.ltb_spec ((page - 1) * limit) 0); [nia |].
    destruct (Z.eqb_spec limit 0); [lia |].
    destruct (Z.ltb_spec limit 0); [lia |].
    do 2 f_equal. nia.
  - intros page. unfold pageOf.
    replace ((page - 1) * 0)%Z with 0%Z by lia. reflexivity.
  - intros limit Hlimit. unfold pageOf.
    destruct (Z.ltb_spec ((0 - 1) * limit) 0); [| lia].
    destruct (Z.eqb_spec limit 0); [lia |].
    destruct (Z.ltb_spec limit 0); [lia |].
    replace (Z.to_nat (- ((0 - 1) * limit))) with (Z.to_nat limit) by lia.
    apply take_ge. rewrite length_drop. lia.
Qed.

(** ** Featured content is the head of the sorted list *)

Section SortIsStable.

Context {A : Type} (key : A -> Z).

Let compare (a b : A) : Z := (key b - key a)%Z.

Lemma insertBy_Permutation (x : A) (l : list A) :
  Permutation (JsArray.insertBy compare x l) (x :: l).
Proof.
  induction l as [| y l IH]; simpl; [reflexivity |].
  destruct (compare x y <=? 0)%Z; [reflexivity |].
  rewrite IH. apply perm_swap.
Qed.

Lemma sort_Permutation (l : list A) : Permutation (JsArray.sort compare l) l.
Proof.
  induction l as [| x l IH]; [reflexivity |].
  change (JsArray.sort compare (x :: l))
    with (JsArray.insertBy compare x (JsArray.sort compare l)).
  rewrite insertBy_Permutation, IH. reflexivity.
Qed.

Lemma insertBy_filter_key (k : Z) (x : A) (l : list A) :
  List.filter (fun a => (key a =? k)%Z) (JsArray.insertBy compare x l)
  = List.filter (fun a => (key a =? k)%Z) (x :: l).
Proof.
  induction l as [| y l IH]; [reflexivity |].
  cbn [JsArray.insertBy].
  destruct (Z.leb_spec (compare x y) 0) as [Hle | Hgt]; [reflexivity |].
  unfold compare in Hgt. cbn [List.filter] in *. rewrite IH.
  destruct (Z.eqb_spec (key x) k) as [Hx | Hx];
    destruct (Z.eqb_spec (key y) k) as [Hy | Hy]; try reflexivity; lia.
Qed.

Lemma sort_filter_key (k : Z) (l : list A) :
  List.filter (fun a => (key a =? k)%Z) (JsArray.sort compare l)
  = List.filter (fun a => (key a =? k)%Z) l.
Proof.
  induction l as [| x l IH]; [reflexivity |].
  change (JsArray.sort compare (x :: l))
    with (JsArray.insertBy compare x (JsArray.sort compare l)).
  rewrite insertBy_filter_key. cbn [List.filter]. rewrite IH. reflexivity.
Qed.

End SortIsStable.

(** X21.  [findFeatured] returns the first five of a rearrangement of the
    visible published contents that is ordered by time value descending and
    keeps contents of equal time value in the order of the map; so with at
    most five of them it returns them all, and [countFeatured] is their
    number capped at 5. *)
Theorem findFeatured_is_the_head_of_the_sorted
    (this : InMemoryContentRepository.t) :
  exists published sorted,
    InMemoryContentRepository.findPublished None this = ok published
    /\ Permutation sorted published
    /\ StronglySorted notBefore sorted
    /\ (forall time,
          List.filter
            (fun content => (timeOrZero (Content.getPublishedAt content) =? time)%Z)
            sorted
          = List.filter
              (fun content => (timeOrZero (Content.getPublishedAt content) =? time)%Z)
              published)
    /\ InMemoryContentRepository.findFeatured this = ok (take 5 sorted)
    /\ (length published <= 5 ->
        InMemoryContentRepository.findFeatured this = ok sorted)
    /\ InMemoryContentRepository.countFeatured this = ok (5 `min` length published).
Proof.
  unfold InMemoryContentRepository.countFeatured, InMemoryContentRepository.findFeatured.
  destruct (InMemoryContentRepository.findPublished None this)
    as [published | error] eqn:Hpublished; [| discriminate Hpublished].
  exists published,
    (JsArray.sort InMemoryContentRepository.byPublishedAtDesc published).
  split; [reflexivity |].
  split; [apply (sort_Permutation
                   (fun content => timeOrZero (Content.getPublishedAt content))) |].
  split; [apply (sort_sorted
                   (fun content => timeOrZero (Content.getPublishedAt content))) |].
  split; [intros time;
          apply (sort_filter_key
                   (fun content => timeOrZero (Content.getPublishedAt content))) |].
  rewrite slice_0_5.
  split; [reflexivity |].
  split.
  - intros Hfew. f_equal. apply take_ge. rewrite sort_length. exact Hfew.
  - rewrite length_take, sort_length. reflexivity.
Qed.

(** ** The commands of the service: refusals and failures *)

Ltac unfold_service :=
  unfold ContentService.publishContent, ContentService.updateContent,
    ContentService.deleteContent, ContentService.repository,
    ContentService.permissions, ContentService.entity, trigger;
  cbn -[InMemoryContentRepository.findById InMemoryContentRepository.save
        InMemoryContentRepository.softDelete InMemoryContentRepository.delete
        DefaultContentPermissions.canEdit DefaultContentPermissions.canDelete
        DefaultContentPermissions.canPublish truthy Content.updateTitle
        Content.updateBody Content.updateExcerpt Content.publish].

Ltac step_service H :=
  rewrite H;
  cbn -[InMemoryContentRepository.findById InMemoryContentRepository.save
        InMemoryContentRepository.softDelete InMemoryContentRepository.delete
        DefaultContentPermissions.canEdit DefaultContentPermissions.canDelete
        DefaultContentPermissions.canPublish truthy Content.updateTitle
        Content.updateBody Content.updateExcerpt Content.publish].

(** The three commands on an id that [findById] does not find, be it absent
    or soft-deleted. *)
Lemma commands_not_found
    (w : World) (contentId : ContentId) (userId : UserId) (userRole : string)
    (updates : ContentService.Updates) :
  InMemoryContentRepository.findById contentId (repo w) = ok None ->
  run container (ContentService.publishContent contentId userId userRole) w
  = (err (mkError "Content not found"), w)
  /\ run container (ContentService.updateContent contentId updates userId userRole) w
     = (err (mkError "Content not found"), w)
  /\ run container (ContentService.deleteContent contentId userId userRole) w
     = (err (mkError "Content not found"), w).
Proof.
  intros Hfind. destruct w as [r readings]. simpl in Hfind.
  unfold_service. step_service Hfind. repeat split; reflexivity.
Qed.

(** The three commands on a content the policy does not let the caller
    touch. *)
Lemma commands_denied
    (w : World) (contentId : ContentId) (userId : UserId) (userRole : string)
    (updates : ContentService.Updates) (content : Content.t) :
  InMemoryContentRepository.findById contentId (repo w) = ok (Some content) ->
  (DefaultContentPermissions.canPublish content userId userRole = false ->
   run container (ContentService.publishContent contentId userId userRole) w
   = (err (mkError "Permission denied: cannot publish content"), w))
  /\ (DefaultContentPermissions.canEdit content userId userRole = false ->
      run container (ContentService.updateContent contentId updates userId userRole) w
      = (err (mkError "Permission denied: cannot edit content"), w))
  /\ (DefaultContentPermissions.canDelete content userId userRole = false ->
      run container (ContentService.deleteContent contentId userId userRole) w
      = (err (mkError "Permission denied: cannot delete content"), w)).
Proof.
  intros Hfind. destruct w as [r readings]. simpl in Hfind.
  unfold_service. step_service Hfind.
  repeat split; intros Hno; step_service Hno; reflexivity.
Qed.

(** [publishContent] and [deleteContent] on a content the caller may touch. *)
Lemma publishContent_run
    (w : World) (contentId : ContentId) (userId : UserId) (userRole : string)
    (content : Content.t) :
  InMemoryContentRepository.findById contentId (repo w) = ok (Some content) ->
  DefaultContentPermissions.canPublish content userId userRole = true ->
  run container (ContentService.publishContent contentId userId userRole) w
  = let (outcome, readings) := run handleClock (Content.publish content) (clock w) in
    match outcome with
    | err error => (err error, mkWorld (repo w) readings)
    | ok published =>
        (ok published,
         mkWorld (snd (InMemoryContentRepository.save published (repo w))) readings)
    end.
Proof.
  intros Hfind Hyes. destruct w as [r readings]. simpl in Hfind.
  unfold_service. step_service Hfind. step_service Hyes.
  unfold Content.publish, Content.changeState.
  destruct (negb _); [reflexivity |].
  destruct (_ && _); cbn -[InMemoryContentRepository.save]; reflexivity.
Qed.

Lemma deleteContent_run
    (w : World) (contentId : ContentId) (userId : UserId) (userRole : string)
    (content : Content.t) :
  InMemoryContentRepository.findById contentId (repo w) = ok (Some content) ->
  DefaultContentPermissions.canDelete content userId userRole = true ->
  run container (ContentService.deleteContent contentId userId userRole) w
  = (ok tt,
     mkWorld
       (if ContentState.isPublished (Content.getState content)
        then snd (InMemoryContentRepository.softDelete contentId (repo w))
        else snd (InMemoryContentRepository.delete contentId (repo w)))
       (clock w)).
Proof.
  intros Hfind Hyes. destruct w as [r readings]. simpl in Hfind.
  pose proof (proj1 (findById_Some contentId r content) Hfind) as [_ Hget].
  unfold_service. step_service Hfind. step_service Hyes.
  destruct (ContentState.isPublished (Content.getState content)) eqn:Hpub; cbn.
  - unfold InMemoryContentRepository.softDelete. rewrite Hget, Hpub. reflexivity.
  - unfold InMemoryContentRepository.delete. rewrite Hget, Hpub. reflexivity.
Qed.

Lemma findById_is_ok (id : ContentId) (this : InMemoryContentRepository.t) :
  InMemoryContentRepository.findById id this = ok None
  \/ exists content, InMemoryContentRepository.findById id this = ok (Some content).
Proof.
  unfold InMemoryContentRepository.findById.
  destruct (bool_decide _); [left; reflexivity |].
  destruct (JsMap.get id _) as [content |]; [right; eexists |left]; reflexivity.
Qed.

(** X22.  A command of the service that fails changes nothing: when
    [publishContent], [updateContent] or [deleteContent] returns a failure,
    the repository is in the state it was in before the call. *)
Theorem failed_commands_change_nothing
    (w : World) (contentId : ContentId) (userId : UserId) (userRole : string)
    (updates : ContentService.Updates) :
  (isOk (fst (run container
                (ContentService.publishContent contentId userId userRole) w)) = false ->
   repo (snd (run container
                (ContentService.publishContent contentId userId userRole) w)) = repo w)
  /\ (isOk (fst (run container
                   (ContentService.updateContent contentId updates userId userRole) w))
      = false ->
      repo (snd (run container
                   (ContentService.updateContent contentId updates userId userRole) w))
      = repo w)
  /\ (isOk (fst (run container
                   (ContentService.deleteContent contentId userId userRole) w)) = false ->
      repo (snd (run container
                   (ContentService.deleteContent contentId userId userRole) w)) = repo w).
Proof.
  destruct (findById_is_ok contentId (repo w)) as [Hnone | [content Hfound]].
  - destruct (commands_not_found w contentId userId userRole updates Hnone)
      as (-> & -> & ->).
    repeat split; reflexivity.
  - destruct (commands_denied w contentId userId userRole updates content Hfound)
      as (Hpublish & Hedit & Hdelete).
    split; [| split].
    + destruct (DefaultContentPermissions.canPublish content userId userRole) eqn:Hyes;
        [| rewrite (Hpublish eq_refl); reflexivity].
      rewrite (publishContent_run w contentId userId userRole content Hfound Hyes).
      destruct (run handleClock (Content.publish content) (clock w))
        as [[published | error] readings]; simpl; [discriminate | reflexivity].
    + destruct (DefaultContentPermissions.canEdit content userId userRole) eqn:Hyes;
        [| rewrite (Hedit eq_refl); reflexivity].
      rewrite (updateContent_run w contentId updates userId userRole content Hfound Hyes).
      destruct (run handleClock (fieldUpdates updates content) (clock w))
        as [[updated | error] readings]; simpl; [discriminate | reflexivity].
    + destruct (DefaultContentPermissions.canDelete content userId userRole) eqn:Hyes;
        [| rewrite (Hdelete eq_refl); reflexivity].
      rewrite (deleteContent_run w contentId userId userRole content Hfound Hyes).
      simpl. discriminate.
Qed.

(** "user-999" may not edit the draft: the call fails and the repository is
    as before. *)
Lemma failed_commands_change_nothing_witness :
  isOk (fst (run container
               (ContentService.updateContent "content-1"
                  (ContentService.mkUpdates (Some "Updated Title") None None)
                  "user-999" "Author")
               draftWorld))
  = false
  /\ repo (snd (run container
                  (ContentService.updateContent "content-1"
                     (ContentService.mkUpdates (Some "Updated Title") None None)
                     "user-999" "Author")
                  draftWorld))
     = repo draftWorld.
Proof.
  split; [reflexivity |].
  apply (proj1 (proj2 (failed_commands_change_nothing draftWorld "content-1"
                         "user-999" "Author"
                         (ContentService.mkUpdates (Some "Updated Title") None None)))).
  reflexivity.
Defined.

(** ** The commands of the service: what they keep *)



(** X24.  [deleteContent] fails only with [NotFound] or
    [PermissionDenied], never with the repository's [InvalidOperation].
    Once it has succeeded on an id, the content is out of reach of the
    service: [publishContent], [updateContent] and [deleteContent] on that
    id fail with [NotFound] for every caller and role, Admin included. *)
Theorem deleteContent_outcomes
    (w : World) (contentId : ContentId) (userId : UserId) (userRole : string) :
  let call := ContentService.deleteContent contentId userId userRole in
  let result := fst (run container call w) in
  let after := snd (run container call w) in
  (forall error,
     result = err error ->
     errorKind error = Some NotFound \/ errorKind error = Some PermissionDenied)
  /\ (result = ok tt ->
      forall otherId otherRole updates,
        fst (run container
               (ContentService.publishContent contentId otherId otherRole) after)
        = err (mkError "Content not found")
        /\ fst (run container
                  (ContentService.updateContent contentId updates otherId otherRole)
                  after)
           = err (mkError "Content not found")
        /\ fst (run container
                  (ContentService.deleteContent contentId otherId otherRole) after)
           = err (mkError "Content not found")).
Proof.
  cbv zeta.
  set (noUpdates := ContentService.mkUpdates None None None).
  destruct (findById_is_ok contentId (repo w)) as [Hnone | [content Hfound]].
  - destruct (commands_not_found w contentId userId userRole noUpdates Hnone)
      as (_ & _ & ->). simpl.
    split; [intros error [= <-]; left; reflexivity | discriminate].
  - destruct (commands_denied w contentId userId userRole noUpdates content Hfound)
      as (_ & _ & Hdelete).
    destruct (DefaultContentPermissions.canDelete content userId userRole) eqn:Hyes.
    + rewrite (deleteContent_run w contentId userId userRole content Hfound Hyes).
      cbn [fst snd]. split; [discriminate |].
      intros _ otherId otherRole updates.
      assert (Hgone : InMemoryContentRepository.findById contentId
                        (if ContentState.isPublished (Content.getState content)
                         then snd (InMemoryContentRepository.softDelete contentId (repo w))
                         else snd (InMemoryContentRepository.delete contentId (repo w)))
                      = ok None).
      { apply findById_Some in Hfound as [_ Hget].
        destruct (ContentState.isPublished (Content.getState content)) eqn:Hpub.
        - apply tombstone_hides, softDelete_adds_tombstone.
          unfold InMemoryContentRepository.softDelete. rewrite Hget, Hpub. reflexivity.
        - apply delete_then_invisible.
          unfold InMemoryContentRepository.delete. rewrite Hget, Hpub. reflexivity. }
      destruct (commands_not_found
                  (mkWorld
                     (if ContentState.isPublished (Content.getState content)
                      then snd (InMemoryContentRepository.softDelete contentId (repo w))
                      else snd (InMemoryContentRepository.delete contentId (repo w)))
                     (clock w))
                  contentId otherId otherRole updates Hgone)
        as (-> & -> & ->).
      repeat split; reflexivity.
    + rewrite (Hdelete eq_refl). simpl.
      split; [intros error [= <-]; right; reflexivity | discriminate].
Qed.

(** The author deletes the draft; an Admin then finds nothing to delete. *)
Lemma deleteContent_outcomes_witness :
  fst (run container (ContentService.deleteContent "content-1" "user-1" "Author")
         draftWorld)
  = ok tt
  /\ fst (run container (ContentService.deleteContent "content-1" "user-3" "Admin")
            (snd (run container
                    (ContentService.deleteContent "content-1" "user-1" "Author")
                    draftWorld)))
     = err (mkError "Content not found").
Proof.
  split; [reflexivity |].
  apply (proj2 (deleteContent_outcomes draftWorld "content-1" "user-1" "Author")
           eq_refl "user-3" "Admin" (ContentService.mkUpdates None None None)).
Defined.

(** ** The commands of the service keep the repository sound *)

Lemma JsMap_set_values_Forall {V} (P : V -> Prop) (k : string) (v : V) (m : JsMap.t V) :
  P v -> Forall P (JsMap.values m) -> Forall P (JsMap.values (JsMap.set k v m)).
Proof.
  intros Hv. unfold JsMap.values.
  induction m as [| [k0 v0] m IH]; simpl; intros Hm.
  - constructor; [exact Hv | constructor].
  - apply Forall_cons in Hm as [H0 Hm].
    case_bool_decide; simpl; constructor; auto.
Qed.

Lemma JsMap_delete_values_Forall {V} (P : V -> Prop) (k : string) (m : JsMap.t V) :
  Forall P (JsMap.values m) -> Forall P (JsMap.values (JsMap.delete k m)).
Proof.
  unfold JsMap.values, JsMap.delete.
  induction m as [| [k0 v0] m IH]; simpl; intros Hm; [constructor |].
  apply Forall_cons in Hm as [H0 Hm].
  destruct (negb _); simpl; [constructor |]; auto.
Qed.

Lemma changeState_valid
    (S : Type) (h : Handler ClockE S) (s : S) (c : Content.t)
    (newState : ContentState.t) (changed : Content.t) :
  valid c ->
  fst (run h (Content.changeState newState c) s) = ok changed ->
  valid changed.
Proof.
  intros ((Hlow & Hhigh) & Hbody & Hstamp). unfold valid, Content.changeState.
  destruct (negb _); [discriminate |].
  destruct (_ && _); simpl.
  - destruct (h Date NewDate s) as [stamp s1]. simpl.
    destruct (h Date NewDate s1) as [now s2]. intros [= <-]. simpl. eauto.
  - destruct (h Date NewDate s) as [now s1]. intros [= <-]. simpl. eauto.
Qed.

Lemma fieldUpdates_valid
    (updates : ContentService.Updates) (content updated : Content.t) (readings : nat -> Z) :
  valid content ->
  fst (run handleClock (fieldUpdates updates content) readings) = ok updated ->
  valid updated.
Proof.
  intros ((Hlow & Hhigh) & Hbody & Hstamp).
  pose proof (fieldUpdates_outcome _ handleClock readings updates content) as Houtcome.
  cbv zeta in Houtcome. destruct Houtcome as [Hsucceeds Hfields].
  intros Hok. destruct (Hfields updated Hok) as (Htitle & Hbody' & _).
  assert (Hyes : isOk (fst (run handleClock (fieldUpdates updates content) readings))
                 = true) by (rewrite Hok; reflexivity).
  apply Hsucceeds in Hyes as [Hgoodtitle Hgoodbody].
  unfold valid. rewrite Htitle, Hbody'.
  split; [| split].
  - destruct (truthy (ContentService.updates_title updates));
      [apply Hgoodtitle; reflexivity | split; assumption].
  - destruct (truthy (ContentService.updates_body updates));
      [apply Hgoodbody; reflexivity | assumption].
  - revert Hok. destruct updates as [title body excerpt].
    unfold fieldUpdates, supplied, Content.updateTitle, Content.updateBody,
      Content.updateExcerpt. simpl ContentService.updates_title.
    simpl ContentService.updates_body. simpl ContentService.updates_excerpt.
    split_on_fields title body excerpt; cbn; try discriminate;
      intros [= <-]; cbn; eauto.
Qed.

(** X25.  The commands keep the repository sound: if the repository is well
    keyed and every stored content satisfies the field constraints, then so
    it is after [publishContent], [updateContent] and [deleteContent],
    whatever their arguments and their outcome. *)
Theorem commands_keep_the_repository_sound
    (w : World) (contentId : ContentId) (userId : UserId) (userRole : string)
    (updates : ContentService.Updates) :
  wellKeyed (repo w) ->
  Forall valid (JsMap.values (InMemoryContentRepository.contents (repo w))) ->
  let sound (after : World) :=
    wellKeyed (repo after)
    /\ Forall valid (JsMap.values (InMemoryContentRepository.contents (repo after))) in
  sound (snd (run container
                (ContentService.publishContent contentId userId userRole) w))
  /\ sound (snd (run container
                   (ContentService.updateContent contentId updates userId userRole) w))
  /\ sound (snd (run container
                   (ContentService.deleteContent contentId userId userRole) w)).
Proof.
  intros Hkeyed Hvalid. cbv zeta.
  assert (Hsave : forall content,
             valid content ->
             wellKeyed (snd (InMemoryContentRepository.save content (repo w)))
             /\ Forall valid
                  (JsMap.values
                     (InMemoryContentRepository.contents
                        (snd (InMemoryContentRepository.save content (repo w)))))).
  { intros content Hcontent. split.
    - apply (handle_keeps_wellKeyed _ (Save content)). exact Hkeyed.
    - simpl. apply JsMap_set_values_Forall; assumption. }
  destruct (findById_is_ok contentId (repo w)) as [Hnone | [content Hfound]].
  - destruct (commands_not_found w contentId userId userRole updates Hnone)
      as (-> & -> & ->).
    exact (conj (conj Hkeyed Hvalid) (conj (conj Hkeyed Hvalid) (conj Hkeyed Hvalid))).
  - assert (Hcontent : valid content).
    { pose proof Hfound as Hget. apply findById_Some in Hget as [_ Hget].
      apply JsMap_get_In in Hget. rewrite List.Forall_forall in Hvalid.
      apply Hvalid. unfold JsMap.values. apply List.in_map_iff.
      exists (contentId, content). split; [reflexivity | exact Hget]. }
    destruct (commands_denied w contentId userId userRole updates content Hfound)
      as (Hpublish & Hedit & Hdelete).
    split; [| split].
    + destruct (DefaultContentPermissions.canPublish content userId userRole) eqn:Hyes;
        [| rewrite (Hpublish eq_refl); split; assumption].
      rewrite (publishContent_run w contentId userId userRole content Hfound Hyes).
      destruct (run handleClock (Content.publish content) (clock w))
        as [[published | error] readings] eqn:Hrun; cbn [snd repo];
        [| split; assumption].
      apply Hsave.
      apply (changeState_valid _ handleClock (clock w) content
               ContentState.published published Hcontent).
      unfold Content.publish in Hrun. rewrite Hrun. reflexivity.
    + destruct (DefaultContentPermissions.canEdit content userId userRole) eqn:Hyes;
        [| rewrite (Hedit eq_refl); split; assumption].
      rewrite (updateContent_run w contentId updates userId userRole content Hfound Hyes).
      destruct (run handleClock (fieldUpdates updates content) (clock w))
        as [[updated | error] readings] eqn:Hrun; cbn [snd repo];
        [| split; assumption].
      apply Hsave. apply (fieldUpdates_valid updates content updated (clock w) Hcontent).
      rewrite Hrun. reflexivity.
    + destruct (DefaultContentPermissions.canDelete content userId userRole) eqn:Hyes;
        [| rewrite (Hdelete eq_refl); split; assumption].
      rewrite (deleteContent_run w contentId userId userRole content Hfound Hyes).
      cbn [snd repo].
      destruct (ContentState.isPublished (Content.getState content)).
      * split.
        -- apply (handle_keeps_wellKeyed _ (SoftDelete contentId)). exact Hkeyed.
        -- unfold InMemoryContentRepository.softDelete.
           destruct (JsMap.get contentId _); [destruct (negb _) |]; exact Hvalid.
      * split.
        -- apply (handle_keeps_wellKeyed _ (Delete contentId)). exact Hkeyed.
        -- unfold InMemoryContentRepository.delete.
           destruct (JsMap.get contentId _); [destruct (ContentState.isPublished _) |];
             try exact Hvalid.
           simpl. apply JsMap_delete_values_Forall. exact Hvalid.
Qed.

(** [draftWorld] is sound, and stays so when its draft gets a new title. *)
Lemma commands_keep_the_repository_sound_witness :
  wellKeyed (repo draftWorld)
  /\ Forall valid (JsMap.values (InMemoryContentRepository.contents (repo draftWorld)))
  /\ wellKeyed
       (repo (snd (run container
                     (ContentService.updateContent "content-1"
                        (ContentService.mkUpdates (Some "Updated Title") None None)
                        "user-1" "Author")
                     draftWorld))).
Proof.
  assert (Hkeyed : wellKeyed (repo draftWorld)).
  { split; simpl.
    - constructor; [reflexivity | constructor].
    - apply NoDup_singleton. }
  assert (Hvalid : Forall valid
                     (JsMap.values (InMemoryContentRepository.contents (repo draftWorld)))).
  { simpl. constructor; [| constructor].
    unfold valid. simpl. repeat split; try lia. eexists. reflexivity. }
  split; [exact Hkeyed |]. split; [exact Hvalid |].
  exact (proj1 (proj1 (proj2 (commands_keep_the_repository_sound draftWorld "content-1"
                                "user-1" "Author"
                                (ContentService.mkUpdates (Some "Updated Title") None None)
                                Hkeyed Hvalid)))).
Defined.

(** ** Publishing again *)

(** X26.  In a well-keyed repository [publishContent] can be repeated: after
    a successful call the same call succeeds again, on the content the first
    one saved, and returns a published content with the [publishedAt] of
    the first, which is set. *)
Theorem publishContent_again
    (w : World) (contentId : ContentId) (userId : UserId) (userRole : string)
    (first : Content.t) :
  wellKeyed (repo w) ->
  fst (run container (ContentService.publishContent contentId userId userRole) w)
  = ok first ->
  let after :=
    snd (run container (ContentService.publishContent contentId userId userRole) w) in
  InMemoryContentRepository.findById contentId (repo after) = ok (Some first)
  /\ exists second,
       fst (run container (ContentService.publishContent contentId userId userRole) after)
       = ok second
       /\ Content.getState second = ContentState.published
       /\ is_Some (Content.getPublishedAt first)
       /\ Content.getPublishedAt second = Content.getPublishedAt first.
Proof.
  intros Hkeyed Hok. cbv zeta.
  set (noUpdates := ContentService.mkUpdates None None None).
  destruct (findById_is_ok contentId (repo w)) as [Hnone | [content Hfound]].
  { destruct (commands_not_found w contentId userId userRole noUpdates Hnone)
      as (Hrun & _ & _).
    rewrite Hrun in Hok. discriminate. }
  destruct (commands_denied w contentId userId userRole noUpdates content Hfound)
    as (Hdenied & _ & _).
  destruct (DefaultContentPermissions.canPublish content userId userRole) eqn:Hyes;
    [| rewrite (Hdenied eq_refl) in Hok; discriminate].
  clear Hdenied.
  pose proof (found_under_its_id (repo w) contentId content Hkeyed Hfound) as Hkey.
  pose proof (proj1 (findById_Some contentId (repo w) content) Hfound) as [Hlive _].
  rewrite (publishContent_run w contentId userId userRole content Hfound Hyes) in *.
  destruct (run handleClock (Content.publish content) (clock w))
    as [[published | error] readings] eqn:Hrun; cbn [fst snd repo] in *;
    [| discriminate].
  injection Hok as ->.
  assert (Hfirst : Content.getId first = contentId
                   /\ Content.getAuthorId first = Content.getAuthorId content
                   /\ Content.getState first = ContentState.published
                   /\ is_Some (Content.getPublishedAt first)).
  { revert Hrun. unfold Content.publish, Content.changeState.
    destruct (negb _); [discriminate |].
    destruct (Content.getPublishedAt content) as [d |] eqn:Hpublished;
      evaluate_states; cbn; intros [= <- _]; cbn; rewrite ?Hpublished; eauto. }
  destruct Hfirst as (Hid & Hauthor & Hstate & Hset).
  assert (Hfound' : InMemoryContentRepository.findById contentId
                      (snd (InMemoryContentRepository.save first (repo w)))
                    = ok (Some first)).
  { apply findById_Some. simpl. split; [exact Hlive |].
    rewrite Hid. apply JsMap_get_set_eq. }
  split; [exact Hfound' |].
  assert (Hyes' : DefaultContentPermissions.canPublish first userId userRole = true).
  { revert Hyes. unfold DefaultContentPermissions.canPublish, Content.isOwnedBy.
    rewrite Hauthor. tauto. }
  rewrite (publishContent_run
             (mkWorld (snd (InMemoryContentRepository.save first (repo w))) readings)
             contentId userId userRole first Hfound' Hyes').
  cbn [clock repo]. unfold Content.publish, Content.changeState.
  rewrite Hstate. destruct Hset as [d Hd]. rewrite Hd.
  evaluate_states. cbn. eexists. repeat split; eauto.
Qed.

(** The author publishes the draft twice; the second call returns the
    [publishedAt] the first one stamped. *)
Lemma publishContent_again_witness :
  wellKeyed (repo draftWorld)
  /\ fst (run container (ContentService.publishContent "content-1" "user-1" "Author")
            draftWorld)
     = ok (Content.mkContent "content-1" "Test Content" testBody "user-1"
             ContentState.published (String.substring 0 150 testBody)
             (Some (DateAt 5000)) (Some (DateAt 5001)))
  /\ exists second,
       fst (run container (ContentService.publishContent "content-1" "user-1" "Author")
              (snd (run container
                      (ContentService.publishContent "content-1" "user-1" "Author")
                      draftWorld)))
       = ok second
       /\ Content.getState second = ContentState.published
       /\ is_Some (Some (DateAt 5000))
       /\ Content.getPublishedAt second = Some (DateAt 5000).
Proof.
  assert (Hkeyed : wellKeyed (repo draftWorld)).
  { split; simpl.
    - constructor; [reflexivity | constructor].
    - apply NoDup_singleton. }
  split; [exact Hkeyed |]. split; [reflexivity |].
  exact (proj2 (publishContent_again draftWorld "content-1" "user-1" "Author" _
                  Hkeyed eq_refl)).
Defined.
